(** * HerbalLink: a shallow embedding of [app.py]

    The Flask application is embedded as a family of state-passing
    functions over a [World] (the two MongoDB collections, the uploads
    directory and the browser session).  Python floats are Rocq's
    primitive binary64 floats, Python strings are [string], dictionaries
    are [gmap]s and exceptions are an explicit [Raise] outcome. *)

From Stdlib Require Import PrimFloat Ascii String ZArith Lia.
From stdpp Require Import base option list gmap strings pretty sorting.

Local Open Scope string_scope.
Local Open Scope list_scope.
Set Warnings "-inexact-float,-register-all".

(** ** Python string helpers used by [allowed_file] *)

Module PyStr.

(** [c.lower()] on one character.  Only the ASCII capitals are mapped;
    no other code point lowers to a letter of [png], [jpg] or [jpeg]. *)
Definition lower_ascii (c : ascii) : ascii :=
  let n := Ascii.N_of_ascii c in
  if ((65 <=? n) && (n <=? 90))%N then Ascii.ascii_of_N (n + 32) else c.

Fixpoint lower (s : string) : string :=
  match s with
  | EmptyString => EmptyString
  | String c r => String (lower_ascii c) (lower r)
  end.

(** [sep in s] for a one-character [sep]. *)
Fixpoint contains (sep : ascii) (s : string) : bool :=
  match s with
  | EmptyString => false
  | String c r => Ascii.eqb c sep || contains sep r
  end.

(** The split point of [s.rsplit(sep, 1)]: the text before and after the
    last occurrence of [sep], when there is one. *)
Fixpoint rsplit_last (sep : ascii) (s : string) : option (string * string) :=
  match s with
  | EmptyString => None
  | String c r =>
      match rsplit_last sep r with
      | Some (h, t) => Some (String c h, t)
      | None => if Ascii.eqb c sep then Some (EmptyString, r) else None
      end
  end.

(** [s.rsplit(sep, 1)] *)
Definition rsplit1 (sep : ascii) (s : string) : list string :=
  match rsplit_last sep s with
  | Some (h, t) => [h; t]
  | None => [s]
  end.

End PyStr.

(** ** numpy reductions over the prediction vector *)

Module Np.

Local Open Scope float_scope.

(** [np.maximum(a, b)]: [(a >= b || isnan(a)) ? a : b]. *)
Definition maximum (a b : float) : float :=
  if (b <=? a) || is_nan a then a else b.

(** [np.max(v)]; raises [ValueError] on an empty vector ([None]). *)
Definition max (v : list float) : option float :=
  match v with
  | [] => None
  | x :: r => Some (fold_left maximum r x)
  end.

(** The scan of [np.argmax]: [best] is the running maximum found at
    [besti], [i] the index of the head of [v].  A NaN is maximal and
    stops the scan. *)
Fixpoint argmax_from (best : float) (besti i : nat) (v : list float) : nat :=
  match v with
  | [] => besti
  | x :: r =>
      if is_nan best then besti
      else if negb (x <=? best) then argmax_from x i (S i) r
      else argmax_from best besti (S i) r
  end.

(** [np.argmax(v)]; raises [ValueError] on an empty vector ([None]). *)
Definition argmax (v : list float) : option nat :=
  match v with
  | [] => None
  | x :: r => Some (argmax_from x 0%nat 1%nat r)
  end.

End Np.

(** ** Data model *)

(** A document of the [users] collection, as [register] inserts it. *)
Record User := mkUser {
  user_fullname : string;
  user_email : string;
  user_password : string;
  registered_at : Z;
}.

(** A document of the [scans] collection; [predict_leaf] and
    [predict_skin] insert documents of different shapes. *)
Inductive Scan :=
| LeafScan (leaf_name uses : string) (diseases : list string) (confidence : float)
           (filename saved_name : string) (timestamp : Z)
| SkinScan (predicted_class : string) (confidence : float)
           (filename saved_name : string) (timestamp : Z).

Definition scan_timestamp (d : Scan) : Z :=
  match d with
  | LeafScan _ _ _ _ _ _ t => t
  | SkinScan _ _ _ _ t => t
  end.

(** The value of [session["user"]]. *)
Record SessionUser := mkSessionUser {
  su_email : option string;
  su_fullname : string;
}.

(** Flask's session: the ["user"] key and the flashed messages, each a
    (category, message) pair. *)
Record Session := mkSession {
  sess_user : option SessionUser;
  flashes : list (string * string);
}.

(** What the handlers read and write. [ticks] counts the reads of the
    outside world (clock, salt) made so far. *)
Record World := mkWorld {
  users : list User;
  scans : list Scan;
  uploads : gmap string string;
  session : Session;
  ticks : nat;
}.

(** An uploaded part of a multipart request (werkzeug's [FileStorage]). *)
Record FileStorage := mkFile {
  file_name : string;
  file_data : string;
}.

Record Request := mkRequest {
  method : string;
  path : string;
  form : gmap string string;
  files : gmap string FileStorage;
}.

Inductive Json :=
| JStr (s : string)
| JNum (x : float)
| JDate (t : Z)
| JArr (items : list Json)
| JObj (fields : list (string * Json)).

Inductive Exn :=
| OSError (path : string)
| FileNotFoundError (path : string)
| ValueError
| IndexError
| ModelError
| HashError.

Inductive Response :=
| Render (template : string)
| Redirect (location : string)
| JsonResponse (status : Z) (body : Json)
| Abort (status : Z)
| AutomaticOptions
| InternalServerError (e : Exn).

Definition status_code (r : Response) : Z :=
  match r with
  | Render _ => 200
  | Redirect _ => 302
  | JsonResponse s _ => s
  | Abort s => s
  | AutomaticOptions => 200
  | InternalServerError _ => 500
  end.

(** A loaded Keras model together with the preprocessing of lines 122-125
    (resp. 136-139): from the bytes of the saved file to the prediction
    vector [preds]; [None] when Keras or PIL raises. *)
Definition Model := string -> option (list float).

(** Everything fixed at start-up or supplied by the outside world. *)
Record Env := mkEnv {
  root_path : string;
  leaf_model : option Model;
  skin_model : option Model;
  disease_classes : list string;
  (** [datetime.datetime.utcnow()] at the n-th read of the outside world *)
  utcnow : nat -> Z;
  (** [int(dt.timestamp()*1000)] *)
  timestamp_ms : Z -> Z;
  (** whether [file.save(path)] can create the file *)
  fs_writable : string -> bool;
  (** werkzeug's [generate_password_hash], with the salt it draws at the
      n-th read of the outside world *)
  generate_password_hash : nat -> string -> string;
  (** werkzeug's [check_password_hash(pwhash, password)]; [None] when it
      raises *)
  check_password_hash : string -> option string -> option bool;
}.

(** ** Handlers as state-passing computations that may raise *)

Inductive Outcome (A : Type) :=
| Ok (a : A)
| Raise (e : Exn).
Arguments Ok {A} a.
Arguments Raise {A} e.

Definition M (A : Type) : Type := World -> Outcome A * World.

Definition ret {A} (a : A) : M A := fun w => (Ok a, w).

Definition bind {A B} (m : M A) (k : A -> M B) : M B :=
  fun w => match m w with
           | (Ok a, w') => k a w'
           | (Raise e, w') => (Raise e, w')
           end.

Definition raise {A} (e : Exn) : M A := fun w => (Raise e, w).

Declare Scope py_scope.
Delimit Scope py_scope with py.
Notation "x <- c ;; k" := (bind c (fun x => k))
  (at level 100, c at next level, right associativity) : py_scope.
Notation "c ;; k" := (bind c (fun _ => k))
  (at level 100, right associativity) : py_scope.

Definition gets {A} (f : World -> A) : M A := fun w => (Ok (f w), w).
Definition modify (f : World -> World) : M unit := fun w => (Ok tt, f w).

Definition set_users (us : list User) (w : World) : World :=
  mkWorld us (scans w) (uploads w) (session w) (ticks w).
Definition set_scans (ss : list Scan) (w : World) : World :=
  mkWorld (users w) ss (uploads w) (session w) (ticks w).
Definition set_uploads (fs : gmap string string) (w : World) : World :=
  mkWorld (users w) (scans w) fs (session w) (ticks w).
Definition set_session (s : Session) (w : World) : World :=
  mkWorld (users w) (scans w) (uploads w) s (ticks w).
Definition set_ticks (n : nat) (w : World) : World :=
  mkWorld (users w) (scans w) (uploads w) (session w) n.

(** The world after [flash(message, category)]. *)
Definition flashed (category message : string) (w : World) : World :=
  set_session (mkSession (sess_user (session w))
                         (flashes (session w) ++ [(category, message)])) w.

(** ** Module-level tables *)

Definition leaf_class_names : list string :=
  ["Aloevera"; "Amruthaballi"; "Arali"; "Bhrami"; "Curry leaves"; "Doddpathre";
   "Hibiscus"; "Mint"; "Neem"; "Tulsi"; "Turmeric"; "Unknown"].

Definition leaf_info : gmap string (string * list string) :=
  list_to_map
  [("Aloevera", ("Soothes burns, reduces scars, hydrates skin, and promotes wound healing.",
                 ["Eczema"; "Psoriasis"; "Acne"; "Skin ulcers"; "Sunburn"; "Dry skin"]));
   ("Amruthaballi", ("Detoxifies blood and reduces skin allergies.",
                     ["Skin rashes"; "Skin allergies"]));
   ("Tulsi", ("Has antibacterial properties for skin health.",
              ["Acne"; "Skin infections"]));
   ("Neem", ("Powerful antimicrobial, treats many skin conditions.",
             ["Eczema"; "Acne"; "Psoriasis"; "Ringworm"; "Scabies"; "Fungal infections"]));
   ("Mint", ("Cools and refreshes skin.", ["Acne"; "Skin irritation"]));
   ("Turmeric", ("Natural anti-inflammatory for skin issues.",
                 ["Eczema"; "Psoriasis"; "Skin infections"; "Wounds"; "Acne scars"]));
   ("Ginger", ("Improves skin elasticity and reduces inflammation.",
               ["Inflammatory skin conditions"; "Skin aging"]));
   ("Lemon", ("Lightens pigmentation and reduces acne scars.",
              ["Hyperpigmentation"; "Acne scars"; "Oily skin"]));
   ("Guava", ("Improves skin texture and prevents premature aging.",
              ["Skin aging"; "Wrinkles"]));
   ("Henna", ("Cools skin and treats fungal issues.",
              ["Fungal skin infections"; "Skin rashes"; "Burns"]));
   ("Hibiscus", ("Rejuvenates skin and reduces aging signs.", ["Wrinkles"; "Skin aging"]));
   ("Rose", ("Improves skin glow and soothes irritation.",
             ["Acne"; "Dry skin"; "Skin irritation"]));
   ("Ashoka", ("Has properties for skin rejuvenation.",
               ["Skin pigmentation"; "Premature aging"]));
   ("Curry leaves", ("Nourishes skin and prevents dryness.", ["Dry skin"]));
   ("Arali", ("Reduces inflammation, soothes rashes and promotes wound healing.",
              ["Eczema"; "Ringworm"; "Minor Wounds"]));
   ("Doddpathre", ("Soothes the skin and reduces itching, redness and microbial infections.",
                   ["Skin rashes"; "Eczema"; "Ringworm"]))].

Definition recommendations : gmap string string :=
  list_to_map
  [("acne", "Neem leaves act as a natural antibacterial agent...");
   ("eczema", "Aloe vera and neem leaves help calm itching...");
   ("psoriasis", "Neem and aloe vera leaves reduce scaling...");
   ("ringworm", "Basil (Tulsi) and neem leaves possess antifungal properties...");
   ("unknown", "No recommendation.")].

(** ** Flask's URL map: the [@app.route] lines *)

(** (rule, declared methods, endpoint).  A route without [methods=] is
    declared for GET. *)
Definition url_rules : list (string * list string * string) :=
  [("/", ["GET"], "home");
   ("/explore", ["GET"], "explore");
   ("/scan_home", ["GET"], "scan_home");
   ("/scan_leaf", ["GET"], "scan_leaf_page");
   ("/scan_skin", ["GET"], "scan_skin_page");
   ("/register", ["GET"; "POST"], "register");
   ("/login", ["GET"; "POST"], "login");
   ("/logout", ["GET"], "logout");
   ("/predict-leaf", ["POST"], "predict_leaf");
   ("/predict", ["POST"], "predict_skin");
   ("/scans", ["GET"], "get_scans")].

(** [url_for(endpoint)] *)
Definition url_for (endpoint : string) : string :=
  match List.find (fun r => String.eqb (snd r) endpoint) url_rules with
  | Some (rule, _, _) => rule
  | None => ""
  end.

(** Werkzeug adds HEAD to every rule that accepts GET. *)
Definition rule_methods (declared : list string) : list string :=
  if existsb (String.eqb "GET") declared then declared ++ ["HEAD"] else declared.

(** [os.path.join(a, b)] for two components. *)
Definition os_path_join (a b : string) : string :=
  match b with
  | String "/" _ => b
  | _ =>
      match PyStr.rsplit_last "/" a with
      | Some (_, EmptyString) => a +:+ b
      | _ => if String.eqb a "" then b else a +:+ "/" +:+ b
      end
  end.

(** [jsonify] of one document of the [scans] collection, the [_id]
    projected away. *)
Definition scan_json (d : Scan) : Json :=
  match d with
  | LeafScan leaf_name uses diseases conf filename saved_name stamp =>
      JObj [("type", JStr "leaf"); ("leaf_name", JStr leaf_name);
            ("uses", JStr uses); ("diseases", JArr (JStr <$> diseases));
            ("confidence", JNum conf); ("filename", JStr filename);
            ("saved_name", JStr saved_name); ("timestamp", JDate stamp)]
  | SkinScan pred_class conf filename saved_name stamp =>
      JObj [("type", JStr "skin"); ("predicted_class", JStr pred_class);
            ("confidence", JNum conf); ("filename", JStr filename);
            ("saved_name", JStr saved_name); ("timestamp", JDate stamp)]
  end.

(** The order of [.sort("timestamp", -1)]: [a] may come before [b]. *)
Definition newer_first (a b : Scan) : Prop :=
  (scan_timestamp b <= scan_timestamp a)%Z.

#[global] Instance newer_first_dec : RelDecision newer_first :=
  fun a b => Z_le_dec (scan_timestamp b) (scan_timestamp a).

(** ** The application *)

Section App.

Variable env : Env.

Local Open Scope py_scope.

Definition UPLOAD_FOLDER : string := os_path_join (root_path env) "uploads".

(** *** The outside world *)

(** [datetime.datetime.utcnow()] *)
Definition now : M Z :=
  fun w => (Ok (utcnow env (ticks w)), set_ticks (S (ticks w)) w).

(** [file.save(path)] *)
Definition save (file : FileStorage) (dst : string) : M unit :=
  fun w =>
    if fs_writable env dst
    then (Ok tt, set_uploads (<[dst := file_data file]> (uploads w)) w)
    else (Raise (OSError dst), w).

(** Lines 122-125 and 136-139: load the image at [filepath] and run the
    model on it. *)
Definition keras_predict (m : Model) (filepath : string) : M (list float) :=
  fun w =>
    match uploads w !! filepath with
    | None => (Raise (FileNotFoundError filepath), w)
    | Some data =>
        match m data with
        | Some preds => (Ok preds, w)
        | None => (Raise ModelError, w)
        end
    end.

Definition lift_option {A} (o : option A) (e : Exn) : M A :=
  match o with
  | Some a => ret a
  | None => raise e
  end.

(** [names[idx]] on a Python list, for an index that is not negative. *)
Definition getitem (names : list string) (idx : nat) : M string :=
  lift_option (names !! idx) IndexError.

(** [generate_password_hash(password)] *)
Definition hash_password (password : string) : M string :=
  fun w => (Ok (generate_password_hash env (ticks w) password),
            set_ticks (S (ticks w)) w).

(** [flash(message, category)] *)
Definition flash (message category : string) : M unit :=
  modify (flashed category message).

(** [users_collection.find_one({"email": email})]; a missing form field
    ([None]) matches no document, every document having an email. *)
Definition find_one_user (email : option string) : M (option User) :=
  gets (fun w =>
    List.find (fun u => bool_decide (Some (user_email u) = email)) (users w)).

Definition insert_one_user (u : User) : M unit :=
  modify (fun w => set_users (users w ++ [u]) w).

Definition insert_one_scan (d : Scan) : M unit :=
  modify (fun w => set_scans (scans w ++ [d]) w).

(** *** Helpers *)

Definition allowed_file (filename : string) : bool :=
  negb (String.eqb filename "")
  && PyStr.contains "." filename
  && match PyStr.rsplit1 "." filename !! 1%nat with
     | Some ext => bool_decide (PyStr.lower ext ∈ ["png"; "jpg"; "jpeg"])
     | None => false
     end.

Definition predict_leaf_image (filepath : string) : M (string * float) :=
  match leaf_model env with
  | None => ret ("Unknown", 0%float)
  | Some leaf_model =>
      preds <- keras_predict leaf_model filepath ;;
      idx <- lift_option (Np.argmax preds) ValueError ;;
      top <- lift_option (Np.max preds) ValueError ;;
      let conf := (top * 100)%float in
      name <- (if (idx <? length leaf_class_names)%nat
               then getitem leaf_class_names idx
               else ret "Unknown") ;;
      if (conf <? 10)%float then ret ("Not a Leaf", conf)
      else ret (name, conf)
  end.

Definition predict_skin_image (filepath : string) : M (string * float) :=
  match skin_model env, disease_classes env with
  | None, _ | _, [] => ret ("unknown", 0%float)
  | Some skin_model, _ :: _ =>
      preds <- keras_predict skin_model filepath ;;
      idx <- lift_option (Np.argmax preds) ValueError ;;
      conf <- lift_option (Np.max preds) ValueError ;;
      pred <- (if (idx <? length (disease_classes env))%nat
               then getitem (disease_classes env) idx
               else ret "unknown") ;;
      if (conf <? 0.05)%float then ret ("unknown", 0%float)
      else ret (pred, conf)
  end.

Definition View := Request -> M Response.

(** The [login_required] decorator. *)
Definition login_required (f : View) : View :=
  fun req =>
    user <- gets (fun w => sess_user (session w)) ;;
    match user with
    | None =>
        flash "Please login first" "warning" ;;
        ret (Redirect (url_for "login"))
    | Some _ => f req
    end.

(** *** Routes *)

Definition home : View := fun _ => ret (Render "main_page.html").

Definition explore : View := fun _ => ret (Redirect (url_for "login")).

Definition scan_home : View :=
  login_required (fun _ => ret (Render "scanning.html")).

Definition scan_leaf_page : View :=
  login_required (fun _ => ret (Render "scan_leaf.html")).

Definition scan_skin_page : View :=
  login_required (fun _ => ret (Render "scan_skin.html")).

(** Python's [not s] for a form value. *)
Definition falsy (s : option string) : bool :=
  match s with
  | None => true
  | Some v => String.eqb v ""
  end.

Definition register : View :=
  fun req =>
    if String.eqb (method req) "POST" then
      let fullname := form req !! "fullname" in
      let email := form req !! "email" in
      let password := form req !! "password" in
      let confirm := form req !! "confirmPassword" in
      if falsy fullname || falsy email || falsy password then
        flash "All fields required" "danger" ;;
        ret (Redirect (url_for "register"))
      else if negb (bool_decide (password = confirm)) then
        flash "Passwords do not match" "danger" ;;
        ret (Redirect (url_for "register"))
      else
        existing <- find_one_user email ;;
        if bool_decide (is_Some existing) then
          flash "Email already registered" "warning" ;;
          ret (Redirect (url_for "register"))
        else
          pwhash <- hash_password (default "" password) ;;
          t <- now ;;
          insert_one_user (mkUser (default "" fullname) (default "" email) pwhash t) ;;
          flash "Registration successful! Login now." "success" ;;
          ret (Redirect (url_for "login"))
    else ret (Render "register.html").

Definition login : View :=
  fun req =>
    if String.eqb (method req) "POST" then
      let email := form req !! "email" in
      let password := form req !! "password" in
      user <- find_one_user email ;;
      ok <- match user with
            | None => ret false
            | Some u => lift_option (check_password_hash env (user_password u) password) HashError
            end ;;
      match user, ok with
      | Some u, true =>
          modify (fun w =>
            set_session (mkSession (Some (mkSessionUser email (user_fullname u)))
                                   (flashes (session w))) w) ;;
          flash ("Welcome " +:+ (if String.eqb (user_fullname u) ""
                                then default "None" email
                                else user_fullname u)) "success" ;;
          ret (Redirect (url_for "scan_home"))
      | _, _ =>
          flash "Invalid credentials" "danger" ;;
          ret (Redirect (url_for "login"))
      end
    else ret (Render "login.html").

Definition logout : View :=
  fun _ =>
    modify (fun w => set_session (mkSession None (flashes (session w))) w) ;;
    flash "Logged out" "info" ;;
    ret (Redirect (url_for "home")).

(** *** Prediction endpoints *)

Definition predict_leaf : View :=
  login_required (fun req =>
    match files req !! "image" with
    | None => ret (JsonResponse 400 (JObj [("error", JStr "no file")]))
    | Some file =>
        if String.eqb (file_name file) "" || negb (allowed_file (file_name file)) then
          ret (JsonResponse 400 (JObj [("error", JStr "invalid file")]))
        else
          let filename := file_name file in
          t <- now ;;
          let safe_name := pretty (timestamp_ms env t) +:+ "_" +:+ filename in
          let save_path := os_path_join UPLOAD_FOLDER safe_name in
          save file save_path ;;
          r <- predict_leaf_image save_path ;;
          let '(leaf_name, conf) := r in
          let info := default ("No info", []) (leaf_info !! leaf_name) in
          stamp <- now ;;
          insert_one_scan (LeafScan leaf_name (fst info) (snd info) conf
                                    filename safe_name stamp) ;;
          ret (JsonResponse 200
                 (JObj [("leaf_name", JStr leaf_name);
                        ("uses", JStr (fst info));
                        ("diseases", JArr (JStr <$> snd info));
                        ("confidence", JNum conf)]))
    end).

Definition predict_skin : View :=
  login_required (fun req =>
    match files req !! "image" with
    | None =>
        ret (JsonResponse 200
               (JObj [("predicted_class", JStr "No image");
                      ("confidence", JNum 0%float);
                      ("recommendation", JStr "N/A")]))
    | Some file =>
        let filename := file_name file in
        t <- now ;;
        let safe_name := pretty (timestamp_ms env t) +:+ "_" +:+ filename in
        let save_path := os_path_join UPLOAD_FOLDER safe_name in
        save file save_path ;;
        r <- predict_skin_image save_path ;;
        let '(pred_class, conf) := r in
        let rec := default "No recommendation" (recommendations !! pred_class) in
        stamp <- now ;;
        insert_one_scan (SkinScan pred_class conf filename safe_name stamp) ;;
        ret (JsonResponse 200
               (JObj [("predicted_class", JStr pred_class);
                      ("confidence", JNum conf);
                      ("recommendation", JStr rec)]))
    end).

(** The stored name and the path that [predict_leaf] and [predict_skin]
    give an upload received at time [t]. *)
Definition stored_name (t : Z) (filename : string) : string :=
  pretty (timestamp_ms env t) +:+ "_" +:+ filename.

Definition stored_path (t : Z) (filename : string) : string :=
  os_path_join UPLOAD_FOLDER (stored_name t filename).

(** [scans_collection.find({}, {"_id": 0}).sort("timestamp", -1).limit(200)];
    MongoDB leaves the order of equal timestamps open, the model sorts
    by merging. *)
Definition find_recent_scans : M (list Scan) :=
  gets (fun w => take 200 (merge_sort newer_first (scans w))).

Definition get_scans : View :=
  login_required (fun _ =>
    docs <- find_recent_scans ;;
    ret (JsonResponse 200 (JArr (scan_json <$> docs)))).

(** *** Dispatch *)

Definition view_functions : list (string * View) :=
  [("home", home); ("explore", explore); ("scan_home", scan_home);
   ("scan_leaf_page", scan_leaf_page); ("scan_skin_page", scan_skin_page);
   ("register", register); ("login", login); ("logout", logout);
   ("predict_leaf", predict_leaf); ("predict_skin", predict_skin);
   ("get_scans", get_scans)].

Definition match_rule (p : string) : option (string * list string * string) :=
  List.find (fun r => String.eqb (fst (fst r)) p) url_rules.

(** Flask's routing: 404 without a rule, the view when the rule accepts
    the method, Flask's own reply to OPTIONS, 405 otherwise. *)
Definition dispatch_request (req : Request) : M Response :=
  match match_rule (path req) with
  | None => ret (Abort 404)
  | Some (_, declared, endpoint) =>
      if existsb (String.eqb (method req)) (rule_methods declared) then
        match List.find (fun v => String.eqb (fst v) endpoint) view_functions with
        | Some (_, view) => view req
        | None => ret (Abort 404)
        end
      else if String.eqb (method req) "OPTIONS" then ret AutomaticOptions
      else ret (Abort 405)
  end.

(** One request: an exception that no handler catches becomes a 500. *)
Definition wsgi_app (req : Request) (w : World) : Response * World :=
  match dispatch_request req w with
  | (Ok r, w') => (r, w')
  | (Raise e, w') => (InternalServerError e, w')
  end.

End App.

(** ** Sample runs *)

Module Sample.

Definition toy_hash (salt : nat) (password : string) : string :=
  "toy$" +:+ pretty salt +:+ "$" +:+ password.

(** Accepts exactly the hashes of [toy_hash]. *)
Definition toy_check (pwhash : string) (password : option string) : option bool :=
  match password with
  | None => None
  | Some p =>
      match PyStr.rsplit_last "$" pwhash with
      | Some (_, stored) => Some (String.eqb stored p)
      | None => Some false
      end
  end.

Definition no_models : Env :=
  mkEnv "/srv/app" None None []
        (fun n => (1700000000000000 + 1000 * Z.of_nat n)%Z)
        (fun t => (t / 1000)%Z)
        (fun _ => true) toy_hash toy_check.

(** A leaf model with thirteen outputs and a skin model with three,
    which answer by the first byte of the file. *)
Definition leaf13 : Model :=
  fun data =>
    match data with
    | String "A" _ => Some [0.9%float; 0.1%float]
    | String "B" _ => Some (repeat 0.07%float 12 ++ [0.16%float])
    | String "C" _ => Some (repeat 0.0769%float 12 ++ [0.0772%float])
    | String "D" _ => Some (repeat 0.09%float 8 ++ [0.095%float; 0.09%float; 0.09%float])
    | _ => None
    end.

Definition skin3 : Model :=
  fun data =>
    match data with
    | String "A" _ => Some [0.2%float; 0.7%float; 0.1%float]
    | String "B" _ => Some [0.01%float; 0.04%float; 0.03%float]
    | String "C" _ => Some [0.1%float; 0.1%float; 0.1%float; 0.7%float]
    | _ => None
    end.

Definition with_models : Env :=
  mkEnv "/srv/app" (Some leaf13) (Some skin3) ["acne"; "eczema"; "psoriasis"]
        (fun n => (1700000000000000 + 1000 * Z.of_nat n)%Z)
        (fun t => (t / 1000)%Z)
        (fun _ => true) toy_hash toy_check.

Definition alice : User := mkUser "A" "a@x.com" "toy$0$pw1234" 1.

Definition empty_world : World := mkWorld [] [] ∅ (mkSession None []) 0.

Definition anonymous : World := mkWorld [alice] [] ∅ (mkSession None []) 0.

Definition logged_in : World :=
  mkWorld [alice] [] ∅ (mkSession (Some (mkSessionUser (Some "a@x.com") "A")) []) 0.

(** A store in which bob's password was written in the clear. *)
Definition bob : User := mkUser "B" "b@x.com" "hunter2" 2.

Definition with_bob : World := mkWorld [alice; bob] [] ∅ (mkSession None []) 0.

(** Three scans, stored out of order, in the session of carol. *)
Definition three_scans : list Scan :=
  [SkinScan "acne" 0.9%float "a.png" "10_a.png" 10;
   LeafScan "Neem" "Powerful antimicrobial, treats many skin conditions." []
            88%float "n.png" "30_n.png" 30;
   SkinScan "unknown" 0%float "" "20_" 20].

Definition carol_with_scans : World :=
  mkWorld [alice] three_scans ∅
          (mkSession (Some (mkSessionUser (Some "c@x.com") "C")) []) 0.

Definition post_file (p name data : string) : Request :=
  mkRequest "POST" p ∅ {[ "image" := mkFile name data ]}.

Definition post_form (p : string) (fields : list (string * string)) : Request :=
  mkRequest "POST" p (list_to_map fields) ∅.

Definition get (p : string) : Request := mkRequest "GET" p ∅ ∅.

(** A world in which an upload with the given bytes is already on disk. *)
Definition stored_at : string := "/srv/app/uploads/1_x.png".

Definition stored (data : string) : World :=
  mkWorld [alice] [] {[ stored_at := data ]}
          (mkSession (Some (mkSessionUser (Some "a@x.com") "A")) []) 0.

End Sample.

(** ** Reading a scan document *)

(** [doc["leaf_name"]] resp. [doc["predicted_class"]] *)
Definition scan_label (d : Scan) : string :=
  match d with
  | LeafScan n _ _ _ _ _ _ => n
  | SkinScan c _ _ _ _ => c
  end.

(** [doc["confidence"]] *)
Definition scan_confidence (d : Scan) : float :=
  match d with
  | LeafScan _ _ _ c _ _ _ => c
  | SkinScan _ c _ _ _ => c
  end.

(** [doc["filename"]] *)
Definition scan_filename (d : Scan) : string :=
  match d with
  | LeafScan _ _ _ _ f _ _ => f
  | SkinScan _ _ f _ _ => f
  end.

(** [doc["saved_name"]] *)
Definition scan_saved_name (d : Scan) : string :=
  match d with
  | LeafScan _ _ _ _ _ s _ => s
  | SkinScan _ _ _ s _ => s
  end.

(** ** Start-up: lines 47-81 *)

(** What the module reads when it is imported. *)
Record Boot := mkBoot {
  (** whether the TensorFlow imports of lines 11-16 went through *)
  TF_AVAILABLE : bool;
  (** [os.environ] *)
  environ : gmap string string;
  (** [os.path.exists] *)
  path_exists : string -> bool;
  (** Keras's [load_model]; [None] when it raises *)
  load_model : string -> option Model;
  (** the lines of a text file, as [for line in f] yields them; [None]
      when opening or reading raises *)
  read_lines : string -> option (list string);
  (** [str.strip] *)
  strip : string -> string;
}.

Section Startup.

Variable boot : Boot.

Definition LEAF_MODEL_PATH : string :=
  default "model1.h5" (environ boot !! "LEAF_MODEL_PATH").

Definition SKIN_MODEL_PATH : string :=
  default "skin_disease_model.h5" (environ boot !! "SKIN_MODEL_PATH").

Definition CLASSES_TXT : string :=
  default "classes.txt" (environ boot !! "CLASSES_TXT").

(** Lines 61-66 and 68-73: a model stays [None] unless TensorFlow is
    there, the file exists and [load_model] returns. *)
Definition try_load_model (model_path : string) : option Model :=
  if TF_AVAILABLE boot then
    if path_exists boot model_path then
      match load_model boot model_path with
      | Some m => Some m
      | None => None
      end
    else None
  else None.

(** Lines 75-81: [[line.strip() for line in f if line.strip()]], or the
    initial [[]]. *)
Definition try_load_classes : list string :=
  if TF_AVAILABLE boot then
    if path_exists boot CLASSES_TXT then
      match read_lines boot CLASSES_TXT with
      | Some lines =>
          strip boot <$> List.filter (fun line => negb (String.eqb (strip boot line) ""))
                                     lines
      | None => []
      end
    else []
  else [].

(** The module globals after import, placed in an environment [e] that
    supplies the rest. *)
Definition started (e : Env) : Env :=
  mkEnv (root_path e)
        (try_load_model LEAF_MODEL_PATH)
        (try_load_model SKIN_MODEL_PATH)
        try_load_classes
        (utcnow e) (timestamp_ms e) (fs_writable e)
        (generate_password_hash e) (check_password_hash e).

End Startup.

(** A start-up for the sample runs: both models on disk, a class list
    with a blank line, and a strip that removes blanks at both ends. *)
Module SampleBoot.

Fixpoint lstrip (s : string) : string :=
  match s with
  | String " " r => lstrip r
  | _ => s
  end.

Definition strip_blanks (s : string) : string :=
  String.rev (lstrip (String.rev (lstrip s))).

Definition on_disk : Boot :=
  mkBoot true ∅
         (fun p => bool_decide (p ∈ ["model1.h5"; "skin_disease_model.h5"; "classes.txt"]))
         (fun p => if String.eqb p "model1.h5" then Some Sample.leaf13
                   else if String.eqb p "skin_disease_model.h5" then Some Sample.skin3
                   else None)
         (fun p => if String.eqb p "classes.txt"
                   then Some ["acne "; "  "; " eczema"; "psoriasis"] else None)
         strip_blanks.

(** The same machine without TensorFlow. *)
Definition no_tensorflow : Boot :=
  mkBoot false ∅ (path_exists on_disk) (load_model on_disk) (read_lines on_disk)
         strip_blanks.

(** The skin model is there, [classes.txt] is not. *)
Definition no_class_list : Boot :=
  mkBoot true ∅
         (fun p => bool_decide (p ∈ ["model1.h5"; "skin_disease_model.h5"]))
         (load_model on_disk) (read_lines on_disk) strip_blanks.

End SampleBoot.

(** * Properties *)

Example lower_PNG : PyStr.lower "PnG" = "png".
Proof. reflexivity. Qed.

Example argmax_first_maximum :
  Np.argmax [0.1%float; 0.7%float; 0.7%float] = Some 1%nat.
Proof. reflexivity. Qed.

Example argmax_nan_is_maximal :
  Np.argmax [0.1%float; nan; 0.7%float] = Some 1%nat.
Proof. reflexivity. Qed.

Example leaf_info_unknown : leaf_info !! "Unknown" = None.
Proof. vm_compute. reflexivity. Qed.

Example url_for_login : url_for "login" = "/login".
Proof. reflexivity. Qed.

Example allowed_names :
  allowed_file "leaf.PnG" = true /\ allowed_file ".jpeg" = true
  /\ allowed_file "leaf.txt" = false /\ allowed_file "png" = false
  /\ allowed_file "leaf.png." = false /\ allowed_file "" = false.
Proof. repeat split; reflexivity. Qed.

(** Register, log in, open the scan page. *)
Example register_login_scan_home :
  let w1 := snd (wsgi_app Sample.no_models
                   (Sample.post_form "/register"
                      [("fullname", "A"); ("email", "a@x.com"); ("password", "pw1234");
                       ("confirmPassword", "pw1234")])
                   Sample.empty_world) in
  let r2 := wsgi_app Sample.no_models
              (Sample.post_form "/login" [("email", "a@x.com"); ("password", "pw1234")])
              w1 in
  let r3 := wsgi_app Sample.no_models (Sample.get "/scan_home") (snd r2) in
  fst r2 = Redirect "/scan_home"
  /\ sess_user (session (snd r2)) = Some (mkSessionUser (Some "a@x.com") "A")
  /\ fst r3 = Render "scanning.html".
Proof. repeat split; reflexivity. Qed.

Example wrong_password_sets_no_session :
  wsgi_app Sample.no_models
    (Sample.post_form "/login" [("email", "a@x.com"); ("password", "pw12345")])
    Sample.anonymous
  = (Redirect "/login", flashed "danger" "Invalid credentials" Sample.anonymous).
Proof. reflexivity. Qed.

(** A file that is no image gets past /predict, is saved, and makes the
    classifier raise: a 500, the upload left behind, no scan recorded. *)
Example undecodable_upload_is_a_fault :
  let r := wsgi_app Sample.with_models (Sample.post_file "/predict" "notes.txt" "Z")
             Sample.logged_in in
  fst r = InternalServerError ModelError
  /\ scans (snd r) = []
  /\ uploads (snd r) !! "/srv/app/uploads/1700000000000_notes.txt" = Some "Z".
Proof. repeat split; reflexivity. Qed.

(** ** The monad and the primitive steps *)

Section Steps.

Context (env : Env).

Lemma bind_ok {A B} (m : M A) (k : A -> M B) w a w' :
  m w = (Ok a, w') -> bind m k w = k a w'.
Proof. unfold bind. intros ->. reflexivity. Qed.

Lemma bind_ret {A B} (a : A) (k : A -> M B) w : bind (ret a) k w = k a w.
Proof. reflexivity. Qed.

Lemma keras_predict_ok (m : Model) filepath data preds w :
  uploads w !! filepath = Some data -> m data = Some preds ->
  keras_predict m filepath w = (Ok preds, w).
Proof. unfold keras_predict. intros -> ->. reflexivity. Qed.

(** The guarded lookup [names[idx] if idx < len(names) else sentinel]
    never raises: it is the element at [idx], or the sentinel. *)
Lemma guarded_getitem (names : list string) (sentinel : string) (idx : nat) w :
  (if (idx <? length names)%nat then getitem names idx else ret sentinel) w
  = (Ok (default sentinel (names !! idx)), w).
Proof.
  destruct (Nat.ltb_spec idx (length names)) as [Hlt|Hge].
  - destruct (lookup_lt_is_Some_2 names idx Hlt) as [x Hx].
    unfold getitem. rewrite Hx. reflexivity.
  - rewrite (lookup_ge_None_2 names idx) by lia. reflexivity.
Qed.

Lemma argmax_of_max (preds : list float) top :
  Np.max preds = Some top -> exists idx, Np.argmax preds = Some idx.
Proof. destruct preds; [discriminate|]. simpl. eauto. Qed.

(** The leaf classifier on a prediction vector, in closed form. *)
Lemma predict_leaf_image_preds (m : Model) filepath data preds idx top w :
  leaf_model env = Some m ->
  uploads w !! filepath = Some data -> m data = Some preds ->
  Np.argmax preds = Some idx -> Np.max preds = Some top ->
  predict_leaf_image env filepath w
  = (Ok (if (top * 100 <? 10)%float then "Not a Leaf"
         else default "Unknown" (leaf_class_names !! idx),
         (top * 100)%float), w).
Proof.
  intros Hm Hf Hd Hi Ht. unfold predict_leaf_image. rewrite Hm.
  rewrite (bind_ok _ _ _ _ _ (keras_predict_ok m filepath data preds w Hf Hd)).
  rewrite Hi, Ht. cbn [lift_option]. rewrite !bind_ret.
  rewrite (bind_ok _ _ _ _ _ (guarded_getitem leaf_class_names "Unknown" idx w)).
  destruct (top * 100 <? 10)%float; reflexivity.
Qed.

(** The skin classifier on a prediction vector, in closed form. *)
Lemma predict_skin_image_preds (m : Model) filepath data preds idx top w :
  skin_model env = Some m -> disease_classes env <> [] ->
  uploads w !! filepath = Some data -> m data = Some preds ->
  Np.argmax preds = Some idx -> Np.max preds = Some top ->
  predict_skin_image env filepath w
  = (if (top <? 0.05)%float then (Ok ("unknown", 0%float), w)
     else (Ok (default "unknown" (disease_classes env !! idx), top), w)).
Proof.
  intros Hm Hc Hf Hd Hi Ht. unfold predict_skin_image. rewrite Hm.
  destruct (disease_classes env) as [|c cs] eqn:Hcs; [congruence|].
  rewrite (bind_ok _ _ _ _ _ (keras_predict_ok m filepath data preds w Hf Hd)).
  rewrite Hi, Ht. cbn [lift_option]. rewrite !bind_ret.
  rewrite (bind_ok _ _ _ _ _ (guarded_getitem (c :: cs) "unknown" idx w)).
  destruct (top <? 0.05)%float; reflexivity.
Qed.

(** The classifiers only read the world. *)
Lemma predict_leaf_image_pure filepath w :
  predict_leaf_image env filepath w = (fst (predict_leaf_image env filepath w), w).
Proof.
  unfold predict_leaf_image. destruct (leaf_model env) as [m|]; [|reflexivity].
  unfold bind, keras_predict.
  destruct (uploads w !! filepath) as [data|]; [|reflexivity].
  destruct (m data) as [preds|]; [|reflexivity].
  destruct (Np.argmax preds) as [idx|]; [|reflexivity]. cbn [lift_option ret].
  destruct (Np.max preds) as [top|]; [|reflexivity]. cbn [lift_option ret].
  rewrite guarded_getitem.
  destruct (top * 100 <? 10)%float; reflexivity.
Qed.

Lemma predict_skin_image_pure filepath w :
  predict_skin_image env filepath w = (fst (predict_skin_image env filepath w), w).
Proof.
  unfold predict_skin_image. destruct (skin_model env) as [m|]; [|reflexivity].
  destruct (disease_classes env) as [|c cs]; [reflexivity|].
  unfold bind, keras_predict.
  destruct (uploads w !! filepath) as [data|]; [|reflexivity].
  destruct (m data) as [preds|]; [|reflexivity].
  destruct (Np.argmax preds) as [idx|]; [|reflexivity]. cbn [lift_option ret].
  destruct (Np.max preds) as [top|]; [|reflexivity]. cbn [lift_option ret].
  rewrite guarded_getitem.
  destruct (top <? 0.05)%float; reflexivity.
Qed.

Lemma predict_skin_image_no_classes filepath w :
  disease_classes env = [] ->
  predict_skin_image env filepath w = (Ok ("unknown", 0%float), w).
Proof.
  intros Hc. unfold predict_skin_image. rewrite Hc.
  destruct (skin_model env); reflexivity.
Qed.

(** Without a session user the decorated view is never entered,
    whatever it is. *)
Lemma login_required_anonymous (f : View) req w :
  sess_user (session w) = None ->
  login_required f req w
  = (Ok (Redirect "/login"), flashed "warning" "Please login first" w).
Proof.
  intros Hu. unfold login_required, gets, bind. rewrite Hu. reflexivity.
Qed.

Lemma login_required_user (f : View) req w :
  is_Some (sess_user (session w)) -> login_required f req w = f req w.
Proof.
  intros [u Hu]. unfold login_required, gets, bind. rewrite Hu. reflexivity.
Qed.

(** Routing of a request whose rule accepts its method. *)
Lemma dispatch_view req rule declared endpoint (view : View) :
  match_rule (path req) = Some (rule, declared, endpoint) ->
  existsb (String.eqb (method req)) (rule_methods declared) = true ->
  List.find (fun v => String.eqb (fst v) endpoint) (view_functions env)
    = Some (endpoint, view) ->
  dispatch_request env req = view req.
Proof.
  intros Hr Hm Hv. unfold dispatch_request. rewrite Hr, Hm, Hv. reflexivity.
Qed.

Lemma dispatch_predict_leaf req :
  method req = "POST" -> path req = "/predict-leaf" ->
  dispatch_request env req = predict_leaf env req.
Proof.
  intros Hm Hp.
  apply (dispatch_view req "/predict-leaf" ["POST"] "predict_leaf");
    [rewrite Hp|rewrite Hm|]; reflexivity.
Qed.

Lemma dispatch_predict_skin req :
  method req = "POST" -> path req = "/predict" ->
  dispatch_request env req = predict_skin env req.
Proof.
  intros Hm Hp.
  apply (dispatch_view req "/predict" ["POST"] "predict_skin");
    [rewrite Hp|rewrite Hm|]; reflexivity.
Qed.

End Steps.

(** ** Confidence thresholds *)

(** C1. Whenever the top probability of the prediction vector is below
    the threshold (its percentage below 10 for the leaf classifier, the
    probability itself below 0.05 for the skin classifier), the label is
    the sentinel, ["Not a Leaf"] resp. ["unknown"], whatever class the
    arg-max selects; the skin classifier also returns confidence 0.0. *)
Theorem low_confidence_is_sentinel :
  (forall (env : Env) (w : World) (filepath data : string) (m : Model)
          (preds : list float) (top : float),
     leaf_model env = Some m ->
     uploads w !! filepath = Some data -> m data = Some preds ->
     Np.max preds = Some top ->
     (top * 100 <? 10)%float = true ->
     predict_leaf_image env filepath w
     = (Ok ("Not a Leaf", (top * 100)%float), w))
  /\ (forall (env : Env) (w : World) (filepath data : string) (m : Model)
             (preds : list float) (top : float),
        skin_model env = Some m ->
        uploads w !! filepath = Some data -> m data = Some preds ->
        Np.max preds = Some top ->
        (top <? 0.05)%float = true ->
        predict_skin_image env filepath w = (Ok ("unknown", 0%float), w)).
Proof.
  split; intros env w filepath data m preds top Hm Hf Hd Ht Hlow;
    destruct (argmax_of_max preds top Ht) as [idx Hi].
  - rewrite (predict_leaf_image_preds env m filepath data preds idx top w) by assumption.
    rewrite Hlow. reflexivity.
  - destruct (decide (disease_classes env = [])) as [Hc|Hc].
    + apply predict_skin_image_no_classes; assumption.
    + rewrite (predict_skin_image_preds env m filepath data preds idx top w) by assumption.
      rewrite Hlow. reflexivity.
Qed.

(** The leaf model answers 9.5 percent for Turmeric (index 10) and the
    skin model 0.04 for eczema (index 1): both labels are replaced. *)
Lemma low_confidence_is_sentinel_witness :
  predict_leaf_image Sample.with_models Sample.stored_at (Sample.stored "D")
  = (Ok ("Not a Leaf", 9.5%float), Sample.stored "D")
  /\ predict_skin_image Sample.with_models Sample.stored_at (Sample.stored "B")
     = (Ok ("unknown", 0%float), Sample.stored "B").
Proof.
  split.
  - apply (proj1 low_confidence_is_sentinel Sample.with_models (Sample.stored "D")
             Sample.stored_at "D" Sample.leaf13
             (repeat 0.09%float 8 ++ [0.095%float; 0.09%float; 0.09%float])
             0.095%float); reflexivity.
  - apply (proj2 low_confidence_is_sentinel Sample.with_models (Sample.stored "B")
             Sample.stored_at "B" Sample.skin3
             [0.01%float; 0.04%float; 0.03%float] 0.04%float); reflexivity.
Defined.

(** ** Class-name lookup *)

(** C10, as amended. When the arg-max index is not smaller than the
    length of the class-name list, the lookup raises no indexing error and
    yields the sentinel: the skin classifier returns ["unknown"], and the
    leaf classifier returns ["Unknown"] unless its confidence is below 10
    percent, where the threshold sentinel ["Not a Leaf"] takes its place.
    For every index the classifiers return a result. *)
Theorem class_name_lookup_is_total :
  (forall (env : Env) (w : World) (filepath data : string) (m : Model)
          (preds : list float) (idx : nat) (top : float),
     leaf_model env = Some m ->
     uploads w !! filepath = Some data -> m data = Some preds ->
     Np.argmax preds = Some idx -> Np.max preds = Some top ->
     (exists label, predict_leaf_image env filepath w
                    = (Ok (label, (top * 100)%float), w))
     /\ (length leaf_class_names <= idx ->
         predict_leaf_image env filepath w
         = (Ok (if (top * 100 <? 10)%float then "Not a Leaf" else "Unknown",
                (top * 100)%float), w)))
  /\ (forall (env : Env) (w : World) (filepath data : string) (m : Model)
             (preds : list float) (idx : nat) (top : float),
        skin_model env = Some m ->
        uploads w !! filepath = Some data -> m data = Some preds ->
        Np.argmax preds = Some idx -> Np.max preds = Some top ->
        (exists r, predict_skin_image env filepath w = (Ok r, w))
        /\ (length (disease_classes env) <= idx ->
            exists conf, predict_skin_image env filepath w
                         = (Ok ("unknown", conf), w))).
Proof.
  split; intros env w filepath data m preds idx top Hm Hf Hd Hi Ht.
  - rewrite (predict_leaf_image_preds env m filepath data preds idx top w) by assumption.
    split; [eauto|].
    intros Hge. rewrite (lookup_ge_None_2 leaf_class_names idx) by lia.
    reflexivity.
  - destruct (decide (disease_classes env = [])) as [Hc|Hc].
    + rewrite (predict_skin_image_no_classes env filepath w Hc). eauto.
    + rewrite (predict_skin_image_preds env m filepath data preds idx top w) by assumption.
      split; [destruct (top <? 0.05)%float; eauto|].
      intros Hge. rewrite (lookup_ge_None_2 (disease_classes env) idx) by lia.
      destruct (top <? 0.05)%float; eauto.
Qed.

(** Thirteen leaf outputs peaking at index 12 with 16 percent, four skin
    outputs peaking at index 3 of three classes. *)
Lemma class_name_lookup_is_total_witness :
  predict_leaf_image Sample.with_models Sample.stored_at (Sample.stored "B")
  = (Ok ("Unknown", 16%float), Sample.stored "B")
  /\ exists conf,
       predict_skin_image Sample.with_models Sample.stored_at (Sample.stored "C")
       = (Ok ("unknown", conf), Sample.stored "C").
Proof.
  split.
  - apply (proj1 class_name_lookup_is_total Sample.with_models (Sample.stored "B")
             Sample.stored_at "B" Sample.leaf13
             (repeat 0.07%float 12 ++ [0.16%float]) 12%nat 0.16%float);
      reflexivity.
  - apply (proj2 class_name_lookup_is_total Sample.with_models (Sample.stored "C")
             Sample.stored_at "C" Sample.skin3
             [0.1%float; 0.1%float; 0.1%float; 0.7%float] 3%nat 0.7%float);
      reflexivity.
Defined.

(** C10, as stated, fails for the leaf classifier: thirteen nearly uniform
    outputs put the arg-max at index 12, beyond the twelve class names,
    with confidence 7.72 percent, and the label is ["Not a Leaf"], not
    ["Unknown"]. *)
Lemma class_name_lookup_counterexample :
  Np.argmax (repeat 0.0769%float 12 ++ [0.0772%float]) = Some 12%nat
  /\ length leaf_class_names = 12%nat
  /\ predict_leaf_image Sample.with_models Sample.stored_at (Sample.stored "C")
     = (Ok ("Not a Leaf", (0.0772 * 100)%float), Sample.stored "C")
  /\ ~ (forall (env : Env) (w : World) (filepath data : string) (m : Model)
               (preds : list float) (idx : nat),
          leaf_model env = Some m ->
          uploads w !! filepath = Some data -> m data = Some preds ->
          Np.argmax preds = Some idx ->
          length leaf_class_names <= idx ->
          exists conf, predict_leaf_image env filepath w
                       = (Ok ("Unknown", conf), w)).
Proof.
  assert (Hrun : predict_leaf_image Sample.with_models Sample.stored_at (Sample.stored "C")
                 = (Ok ("Not a Leaf", (0.0772 * 100)%float), Sample.stored "C"))
    by reflexivity.
  repeat split; try reflexivity.
  intros Hclaim.
  destruct (Hclaim Sample.with_models (Sample.stored "C") Sample.stored_at "C"
              Sample.leaf13 (repeat 0.0769%float 12 ++ [0.0772%float]) 12%nat)
    as [conf Hconf]; try reflexivity.
  rewrite Hrun in Hconf. discriminate Hconf.
Qed.

(** ** The views, run *)

Section Views.

Context (env : Env).

Lemma allowed_file_nonempty filename :
  allowed_file filename = true ->
  String.eqb filename "" || negb (allowed_file filename) = false.
Proof.
  intros H. rewrite H. unfold allowed_file in H.
  destruct (String.eqb filename ""); [discriminate H|reflexivity].
Qed.

(** The leaf endpoint refuses an upload whose name does not pass
    [allowed_file], before anything is saved. *)
Lemma predict_leaf_rejects req w file :
  is_Some (sess_user (session w)) ->
  files req !! "image" = Some file ->
  String.eqb (file_name file) "" || negb (allowed_file (file_name file)) = true ->
  predict_leaf env req w
  = (Ok (JsonResponse 400 (JObj [("error", JStr "invalid file")])), w).
Proof.
  intros Hu Hf Hbad. unfold predict_leaf.
  rewrite login_required_user by assumption.
  rewrite Hf, Hbad. reflexivity.
Qed.

(** The leaf endpoint on an accepted upload, when saving and
    classification go through. *)
Lemma predict_leaf_run req w file leaf_name conf :
  is_Some (sess_user (session w)) ->
  files req !! "image" = Some file ->
  allowed_file (file_name file) = true ->
  let t := utcnow env (ticks w) in
  let dst := stored_path env t (file_name file) in
  let saved := set_uploads (<[dst := file_data file]> (uploads w))
                           (set_ticks (S (ticks w)) w) in
  fs_writable env dst = true ->
  predict_leaf_image env dst saved = (Ok (leaf_name, conf), saved) ->
  let info := default ("No info", []) (leaf_info !! leaf_name) in
  predict_leaf env req w
  = (Ok (JsonResponse 200
           (JObj [("leaf_name", JStr leaf_name); ("uses", JStr (fst info));
                  ("diseases", JArr (JStr <$> snd info));
                  ("confidence", JNum conf)])),
     mkWorld (users w)
             (scans w ++ [LeafScan leaf_name (fst info) (snd info) conf
                            (file_name file) (stored_name env t (file_name file))
                            (utcnow env (S (ticks w)))])
             (<[dst := file_data file]> (uploads w))
             (session w) (S (S (ticks w)))).
Proof.
  intros Hu Hf Hok t dst saved Hw Hrun info. unfold predict_leaf.
  rewrite login_required_user by assumption.
  rewrite Hf, (allowed_file_nonempty _ Hok).
  unfold bind at 1. unfold now at 1.
  unfold bind at 1. unfold save at 1.
  fold t. fold (stored_name env t (file_name file)).
  fold (stored_path env t (file_name file)). fold dst.
  rewrite Hw.
  change (set_uploads _ (set_ticks (S (ticks w)) w)) with saved.
  unfold bind at 1. rewrite Hrun.
  reflexivity.
Qed.

(** The skin endpoint on any upload: the name of the file enters only
    through the stored name and path. *)
Lemma predict_skin_run req w file :
  is_Some (sess_user (session w)) ->
  files req !! "image" = Some file ->
  let t := utcnow env (ticks w) in
  let dst := stored_path env t (file_name file) in
  let saved := set_uploads (<[dst := file_data file]> (uploads w))
                           (set_ticks (S (ticks w)) w) in
  predict_skin env req w
  = if fs_writable env dst then
      match fst (predict_skin_image env dst saved) with
      | Ok (pred_class, conf) =>
          (Ok (JsonResponse 200
                 (JObj [("predicted_class", JStr pred_class);
                        ("confidence", JNum conf);
                        ("recommendation",
                         JStr (default "No recommendation"
                                       (recommendations !! pred_class)))])),
           mkWorld (users w)
                   (scans w ++ [SkinScan pred_class conf (file_name file)
                                  (stored_name env t (file_name file))
                                  (utcnow env (S (ticks w)))])
                   (<[dst := file_data file]> (uploads w))
                   (session w) (S (S (ticks w))))
      | Raise e => (Raise e, saved)
      end
    else (Raise (OSError dst), set_ticks (S (ticks w)) w).
Proof.
  intros Hu Hf t dst saved. unfold predict_skin.
  rewrite login_required_user by assumption.
  rewrite Hf.
  unfold bind at 1. unfold now at 1.
  unfold bind at 1. unfold save at 1.
  fold t. fold (stored_name env t (file_name file)).
  fold (stored_path env t (file_name file)). fold dst.
  destruct (fs_writable env dst); [|reflexivity].
  change (set_uploads _ (set_ticks (S (ticks w)) w)) with saved.
  unfold bind at 1. rewrite (predict_skin_image_pure env dst saved).
  destruct (fst (predict_skin_image env dst saved)) as [[pred_class conf]|e];
    reflexivity.
Qed.

End Views.

Section Dispatch.

Context (env : Env).

Lemma wsgi_app_ok req w r w' :
  dispatch_request env req w = (Ok r, w') -> wsgi_app env req w = (r, w').
Proof. unfold wsgi_app. intros ->. reflexivity. Qed.

(** What the application answers on a login-protected route when the
    session has no user: the redirect if the rule accepts the method,
    Flask's own answer otherwise; the view body [f] plays no part. *)
Lemma gated_route req w rule declared endpoint (f : View) :
  match_rule (path req) = Some (rule, declared, endpoint) ->
  List.find (fun v => String.eqb (fst v) endpoint) (view_functions env)
    = Some (endpoint, login_required f) ->
  sess_user (session w) = None ->
  wsgi_app env req w
  = if existsb (String.eqb (method req)) (rule_methods declared)
    then (Redirect "/login", flashed "warning" "Please login first" w)
    else (if String.eqb (method req) "OPTIONS" then AutomaticOptions else Abort 405, w).
Proof.
  intros Hr Hv Hu. unfold wsgi_app, dispatch_request. rewrite Hr, Hv.
  destruct (existsb _ _).
  - rewrite login_required_anonymous by assumption. reflexivity.
  - destruct (String.eqb (method req) "OPTIONS"); reflexivity.
Qed.

End Dispatch.

(** ** Session gate *)

(** C3. A request to /scan_home, /scan_leaf, /scan_skin, /predict,
    /predict-leaf or /scans in a session without a user is answered by the
    redirect to the login page with the notice "Please login first": the
    view registered for the route is [login_required f], which returns the
    redirect for every body [f] without running it, and the application
    leaves users, scans, uploads and the clock as they were.  (A method
    that the rule does not accept is answered by Flask's router, before
    any view.) *)
Theorem anonymous_requests_are_redirected (env : Env) (req : Request) (w : World) :
  path req ∈ ["/scan_home"; "/scan_leaf"; "/scan_skin"; "/predict";
              "/predict-leaf"; "/scans"] ->
  sess_user (session w) = None ->
  exists (declared : list string) (endpoint : string) (f : View),
    match_rule (path req) = Some (path req, declared, endpoint)
    /\ List.find (fun v => String.eqb (fst v) endpoint) (view_functions env)
       = Some (endpoint, login_required f)
    /\ (forall g : View,
          login_required g req w
          = (Ok (Redirect "/login"), flashed "warning" "Please login first" w))
    /\ wsgi_app env req w
       = (if existsb (String.eqb (method req)) (rule_methods declared)
          then (Redirect "/login", flashed "warning" "Please login first" w)
          else (if String.eqb (method req) "OPTIONS"
                then AutomaticOptions else Abort 405, w))
    /\ users (snd (wsgi_app env req w)) = users w
    /\ scans (snd (wsgi_app env req w)) = scans w
    /\ uploads (snd (wsgi_app env req w)) = uploads w
    /\ ticks (snd (wsgi_app env req w)) = ticks w
    /\ sess_user (session (snd (wsgi_app env req w))) = None.
Proof.
  intros Hp Hu.
  assert (Hroute : exists declared endpoint (f : View),
            match_rule (path req) = Some (path req, declared, endpoint)
            /\ List.find (fun v => String.eqb (fst v) endpoint) (view_functions env)
               = Some (endpoint, login_required f)).
  { rewrite !elem_of_cons in Hp.
    destruct Hp as [Hp|[Hp|[Hp|[Hp|[Hp|[Hp|Hp]]]]]];
      [| | | | | |apply elem_of_nil in Hp; contradiction];
      rewrite Hp; do 3 eexists; split; reflexivity. }
  destruct Hroute as (declared & endpoint & f & Hr & Hv).
  exists declared, endpoint, f.
  pose proof (gated_route env req w _ _ _ f Hr Hv Hu) as Happ.
  split; [exact Hr|]. split; [exact Hv|].
  split; [intros g; apply login_required_anonymous; exact Hu|].
  split; [exact Happ|].
  rewrite Happ. destruct (existsb _ _); cbn; auto.
Qed.

(** An anonymous POST to /predict-leaf with a well-named image. *)
Lemma anonymous_requests_are_redirected_witness :
  wsgi_app Sample.with_models (Sample.post_file "/predict-leaf" "leaf.png" "A")
           Sample.anonymous
  = (Redirect "/login",
     mkWorld [Sample.alice] [] ∅
             (mkSession None [("warning", "Please login first")]) 0).
Proof.
  destruct (anonymous_requests_are_redirected Sample.with_models
              (Sample.post_file "/predict-leaf" "leaf.png" "A") Sample.anonymous)
    as (declared & endpoint & f & Hr & _ & _ & Happ & _).
  - do 4 apply list_elem_of_further. apply list_elem_of_here.
  - reflexivity.
  - vm_compute in Hr. injection Hr as <- <-. exact Happ.
Defined.

(** ** Prediction endpoints *)

(** C2. While the leaf model is not loaded the classifier answers
    ["Unknown"] with confidence 0.0, and an authenticated POST
    /predict-leaf with an accepted image succeeds with that result: the
    upload is saved and a scan record carrying the sentinel is appended. *)
Theorem leaf_model_unavailable
    (env : Env) (req : Request) (w : World) (file : FileStorage) :
  leaf_model env = None ->
  is_Some (sess_user (session w)) ->
  method req = "POST" -> path req = "/predict-leaf" ->
  files req !! "image" = Some file ->
  allowed_file (file_name file) = true ->
  fs_writable env (stored_path env (utcnow env (ticks w)) (file_name file)) = true ->
  (forall filepath w0, predict_leaf_image env filepath w0 = (Ok ("Unknown", 0%float), w0))
  /\ wsgi_app env req w
     = (JsonResponse 200
          (JObj [("leaf_name", JStr "Unknown"); ("uses", JStr "No info");
                 ("diseases", JArr []); ("confidence", JNum 0%float)]),
        mkWorld (users w)
                (scans w ++ [LeafScan "Unknown" "No info" [] 0%float (file_name file)
                               (stored_name env (utcnow env (ticks w)) (file_name file))
                               (utcnow env (S (ticks w)))])
                (<[stored_path env (utcnow env (ticks w)) (file_name file)
                   := file_data file]> (uploads w))
                (session w) (S (S (ticks w)))).
Proof.
  intros Hm Hu Hmeth Hpath Hf Hok Hw.
  assert (Hcls : forall filepath w0,
             predict_leaf_image env filepath w0 = (Ok ("Unknown", 0%float), w0)).
  { intros filepath w0. unfold predict_leaf_image. rewrite Hm. reflexivity. }
  split; [exact Hcls|].
  apply wsgi_app_ok. rewrite dispatch_predict_leaf by assumption.
  rewrite (predict_leaf_run env req w file "Unknown" 0%float Hu Hf Hok Hw (Hcls _ _)).
  rewrite leaf_info_unknown. reflexivity.
Qed.

Lemma leaf_model_unavailable_witness :
  wsgi_app Sample.no_models (Sample.post_file "/predict-leaf" "leaf.png" "A")
           Sample.logged_in
  = (JsonResponse 200
       (JObj [("leaf_name", JStr "Unknown"); ("uses", JStr "No info");
              ("diseases", JArr []); ("confidence", JNum 0%float)]),
     mkWorld [Sample.alice]
             [LeafScan "Unknown" "No info" [] 0%float "leaf.png"
                "1700000000000_leaf.png" 1700000000001000]
             {[ "/srv/app/uploads/1700000000000_leaf.png" := "A" ]}
             (session Sample.logged_in) 2).
Proof.
  apply (leaf_model_unavailable Sample.no_models
           (Sample.post_file "/predict-leaf" "leaf.png" "A") Sample.logged_in
           (mkFile "leaf.png" "A")); try reflexivity.
  exists (mkSessionUser (Some "a@x.com") "A"). reflexivity.
Defined.

(** C9. An authenticated POST /predict without an "image" part is
    answered 200 with the "No image" body, and nothing is saved or
    recorded; /predict-leaf answers the same request with 400. *)
Theorem missing_image_part (env : Env) (req : Request) (w : World) :
  is_Some (sess_user (session w)) ->
  method req = "POST" ->
  files req !! "image" = None ->
  (path req = "/predict" ->
   status_code (fst (wsgi_app env req w)) = 200%Z
   /\ wsgi_app env req w
      = (JsonResponse 200
           (JObj [("predicted_class", JStr "No image");
                  ("confidence", JNum 0%float);
                  ("recommendation", JStr "N/A")]), w))
  /\ (path req = "/predict-leaf" ->
      wsgi_app env req w
      = (JsonResponse 400 (JObj [("error", JStr "no file")]), w)).
Proof.
  intros Hu Hmeth Hf. split; intros Hpath.
  - assert (Hrun : wsgi_app env req w
                   = (JsonResponse 200
                        (JObj [("predicted_class", JStr "No image");
                               ("confidence", JNum 0%float);
                               ("recommendation", JStr "N/A")]), w)).
    { apply wsgi_app_ok. rewrite dispatch_predict_skin by assumption.
      unfold predict_skin. rewrite login_required_user by assumption.
      rewrite Hf. reflexivity. }
    rewrite Hrun. split; reflexivity.
  - apply wsgi_app_ok. rewrite dispatch_predict_leaf by assumption.
    unfold predict_leaf. rewrite login_required_user by assumption.
    rewrite Hf. reflexivity.
Qed.

Lemma missing_image_part_witness :
  wsgi_app Sample.with_models (Sample.post_form "/predict" []) Sample.logged_in
  = (JsonResponse 200
       (JObj [("predicted_class", JStr "No image"); ("confidence", JNum 0%float);
              ("recommendation", JStr "N/A")]), Sample.logged_in)
  /\ wsgi_app Sample.with_models (Sample.post_form "/predict-leaf" []) Sample.logged_in
     = (JsonResponse 400 (JObj [("error", JStr "no file")]), Sample.logged_in).
Proof.
  assert (Hu : is_Some (sess_user (session Sample.logged_in)))
    by (eexists; reflexivity).
  split.
  - apply (proj1 (missing_image_part Sample.with_models (Sample.post_form "/predict" [])
                    Sample.logged_in Hu eq_refl eq_refl) eq_refl).
  - apply (proj2 (missing_image_part Sample.with_models
                    (Sample.post_form "/predict-leaf" [])
                    Sample.logged_in Hu eq_refl eq_refl) eq_refl).
Defined.

(** C8. The skin endpoint never consults the allow-list: an authenticated
    POST /predict with an "image" part of any name, empty or of any
    extension, saves the upload, classifies it and appends a scan record,
    and answers 200.  The only other outcomes are the unhandled faults of
    the write and of the classifier, which do not depend on the allow-list
    either.  The leaf endpoint answers the same upload with 400 when its
    name is empty or not allowed. *)
Theorem skin_endpoint_has_no_allow_list
    (env : Env) (req : Request) (w : World) (file : FileStorage) :
  is_Some (sess_user (session w)) ->
  method req = "POST" ->
  files req !! "image" = Some file ->
  let t := utcnow env (ticks w) in
  let dst := stored_path env t (file_name file) in
  let saved := set_uploads (<[dst := file_data file]> (uploads w))
                           (set_ticks (S (ticks w)) w) in
  (path req = "/predict" ->
   wsgi_app env req w
   = if fs_writable env dst then
       match fst (predict_skin_image env dst saved) with
       | Ok (pred_class, conf) =>
           (JsonResponse 200
              (JObj [("predicted_class", JStr pred_class);
                     ("confidence", JNum conf);
                     ("recommendation",
                      JStr (default "No recommendation"
                                    (recommendations !! pred_class)))]),
            mkWorld (users w)
                    (scans w ++ [SkinScan pred_class conf (file_name file)
                                   (stored_name env t (file_name file))
                                   (utcnow env (S (ticks w)))])
                    (<[dst := file_data file]> (uploads w))
                    (session w) (S (S (ticks w))))
       | Raise e => (InternalServerError e, saved)
       end
     else (InternalServerError (OSError dst), set_ticks (S (ticks w)) w))
  /\ (path req = "/predict-leaf" ->
      String.eqb (file_name file) "" || negb (allowed_file (file_name file)) = true ->
      wsgi_app env req w
      = (JsonResponse 400 (JObj [("error", JStr "invalid file")]), w)).
Proof.
  intros Hu Hmeth Hf t dst saved. split.
  - intros Hpath. unfold wsgi_app.
    rewrite dispatch_predict_skin by assumption.
    rewrite (predict_skin_run env req w file Hu Hf).
    fold t. fold dst. fold saved.
    destruct (fs_writable env dst); [|reflexivity].
    destruct (fst (predict_skin_image env dst saved)) as [[pred_class conf]|e];
      reflexivity.
  - intros Hpath Hbad. apply wsgi_app_ok.
    rewrite dispatch_predict_leaf by assumption.
    apply (predict_leaf_rejects env req w file); assumption.
Qed.

(** A text file and a file without a name go through /predict, and are
    turned down by /predict-leaf. *)
Lemma skin_endpoint_has_no_allow_list_witness :
  wsgi_app Sample.with_models (Sample.post_file "/predict" "notes.txt" "A")
           Sample.logged_in
  = (JsonResponse 200
       (JObj [("predicted_class", JStr "eczema");
              ("confidence", JNum 0.7%float);
              ("recommendation", JStr "Aloe vera and neem leaves help calm itching...")]),
     mkWorld [Sample.alice]
             [SkinScan "eczema" 0.7%float "notes.txt" "1700000000000_notes.txt"
                1700000000001000]
             {[ "/srv/app/uploads/1700000000000_notes.txt" := "A" ]}
             (session Sample.logged_in) 2)
  /\ wsgi_app Sample.with_models (Sample.post_file "/predict" "" "A")
              Sample.logged_in
     = (JsonResponse 200
          (JObj [("predicted_class", JStr "eczema");
                 ("confidence", JNum 0.7%float);
                 ("recommendation", JStr "Aloe vera and neem leaves help calm itching...")]),
        mkWorld [Sample.alice]
                [SkinScan "eczema" 0.7%float "" "1700000000000_" 1700000000001000]
                {[ "/srv/app/uploads/1700000000000_" := "A" ]}
                (session Sample.logged_in) 2)
  /\ wsgi_app Sample.with_models (Sample.post_file "/predict-leaf" "notes.txt" "A")
              Sample.logged_in
     = (JsonResponse 400 (JObj [("error", JStr "invalid file")]), Sample.logged_in).
Proof.
  assert (Hu : is_Some (sess_user (session Sample.logged_in)))
    by (eexists; reflexivity).
  split; [|split].
  - apply (proj1 (skin_endpoint_has_no_allow_list Sample.with_models
                    (Sample.post_file "/predict" "notes.txt" "A") Sample.logged_in
                    (mkFile "notes.txt" "A") Hu eq_refl eq_refl) eq_refl).
  - apply (proj1 (skin_endpoint_has_no_allow_list Sample.with_models
                    (Sample.post_file "/predict" "" "A") Sample.logged_in
                    (mkFile "" "A") Hu eq_refl eq_refl) eq_refl).
  - apply (proj2 (skin_endpoint_has_no_allow_list Sample.with_models
                    (Sample.post_file "/predict-leaf" "notes.txt" "A") Sample.logged_in
                    (mkFile "notes.txt" "A") Hu eq_refl eq_refl) eq_refl eq_refl).
Defined.

(** ** The allow-list of file extensions *)

Section Extensions.

Import PyStr.

Lemma lower_ascii_eqb_dot c : Ascii.eqb (lower_ascii c) "." = Ascii.eqb c ".".
Proof. destruct c as [[] [] [] [] [] [] [] []]; reflexivity. Qed.

Lemma contains_lower s : contains "." (lower s) = contains "." s.
Proof.
  induction s as [|c s IH]; [reflexivity|].
  simpl. rewrite lower_ascii_eqb_dot, IH. reflexivity.
Qed.

Lemma rsplit_last_None sep s :
  rsplit_last sep s = None <-> contains sep s = false.
Proof.
  induction s as [|c s IH]; simpl; [tauto|].
  destruct (rsplit_last sep s) as [[h t]|].
  - destruct (contains sep s).
    + rewrite orb_true_r. split; discriminate.
    + destruct IH as [_ IH]. discriminate IH. reflexivity.
  - destruct IH as [IH _]. rewrite IH by reflexivity. rewrite orb_false_r.
    destruct (Ascii.eqb c sep); split; congruence.
Qed.

(** [rsplit_last] cuts at a separator and leaves none after the cut. *)
Lemma rsplit_last_Some sep s h t :
  rsplit_last sep s = Some (h, t) ->
  s = h +:+ String sep t /\ contains sep t = false.
Proof.
  revert h. induction s as [|c s IH]; intros h; simpl; [discriminate|].
  destruct (rsplit_last sep s) as [[h' t']|] eqn:E.
  - intros [= <- <-]. destruct (IH h' eq_refl) as [-> Hno].
    split; [reflexivity|exact Hno].
  - destruct (Ascii.eqb_spec c sep) as [->|]; [|discriminate].
    intros [= <- <-]. split; [reflexivity|].
    apply rsplit_last_None. exact E.
Qed.

(** ... and it cuts at the last one. *)
Lemma rsplit_last_app sep stem ext :
  contains sep ext = false ->
  rsplit_last sep (stem +:+ String sep ext) = Some (stem, ext).
Proof.
  intros Hno. induction stem as [|c stem IH]; simpl.
  - apply rsplit_last_None in Hno. rewrite Hno, Ascii.eqb_refl. reflexivity.
  - rewrite IH. reflexivity.
Qed.

Lemma contains_app sep stem ext : contains sep (stem +:+ String sep ext) = true.
Proof.
  induction stem as [|c stem IH]; simpl.
  - rewrite Ascii.eqb_refl. reflexivity.
  - rewrite IH. apply orb_true_r.
Qed.

Lemma allowed_extension_has_no_dot ext :
  lower ext ∈ ["png"; "jpg"; "jpeg"] -> contains "." ext = false.
Proof.
  intros Hin. rewrite <- contains_lower.
  rewrite !elem_of_cons in Hin.
  destruct Hin as [->|[->|[->|Hin]]]; try reflexivity.
  apply elem_of_nil in Hin. contradiction.
Qed.

(** [allowed_file] accepts exactly the names [stem.ext] whose extension
    is png, jpg or jpeg up to case. *)
Lemma allowed_file_spec filename :
  allowed_file filename = true
  <-> exists stem ext, filename = stem +:+ "." +:+ ext
                       /\ lower ext ∈ ["png"; "jpg"; "jpeg"].
Proof.
  unfold allowed_file, rsplit1. split.
  - intros H. apply andb_prop in H as [H Hext]. apply andb_prop in H as [_ _].
    destruct (rsplit_last "." filename) as [[h t]|] eqn:E; [|discriminate Hext].
    apply rsplit_last_Some in E as [-> _].
    exists h, t. split; [reflexivity|].
    cbn in Hext. apply bool_decide_eq_true in Hext. exact Hext.
  - intros (stem & ext & -> & Hin).
    pose proof (allowed_extension_has_no_dot ext Hin) as Hno.
    change ("." +:+ ext) with (String "." ext).
    rewrite contains_app, (rsplit_last_app "." stem ext Hno).
    cbn [lookup list_lookup]. rewrite (bool_decide_eq_true_2 _ Hin).
    destruct stem; reflexivity.
Qed.

End Extensions.

(** C7. An authenticated POST /predict-leaf whose upload has an empty
    name, or a name that is not [stem.ext] with [ext] one of png, jpg,
    jpeg up to case, is answered 400 "invalid file"; nothing is saved and
    no scan record is created: the world is unchanged. *)
Theorem disallowed_upload_is_rejected
    (env : Env) (req : Request) (w : World) (file : FileStorage) :
  is_Some (sess_user (session w)) ->
  method req = "POST" -> path req = "/predict-leaf" ->
  files req !! "image" = Some file ->
  file_name file = ""
  \/ ~ (exists stem ext, file_name file = stem +:+ "." +:+ ext
                         /\ PyStr.lower ext ∈ ["png"; "jpg"; "jpeg"]) ->
  status_code (fst (wsgi_app env req w)) = 400%Z
  /\ wsgi_app env req w
     = (JsonResponse 400 (JObj [("error", JStr "invalid file")]), w).
Proof.
  intros Hu Hmeth Hpath Hf Hbad.
  assert (Hrun : wsgi_app env req w
                 = (JsonResponse 400 (JObj [("error", JStr "invalid file")]), w)).
  { apply wsgi_app_ok. rewrite dispatch_predict_leaf by assumption.
    apply (predict_leaf_rejects env req w file); try assumption.
    destruct Hbad as [->|Hbad]; [reflexivity|].
    destruct (allowed_file (file_name file)) eqn:E.
    - apply allowed_file_spec in E. contradiction.
    - apply orb_true_r. }
  rewrite Hrun. split; reflexivity.
Qed.

(** The upload "leaf.txt" of the end-to-end scenario. *)
Lemma disallowed_upload_is_rejected_witness :
  wsgi_app Sample.with_models (Sample.post_file "/predict-leaf" "leaf.txt" "A")
           Sample.logged_in
  = (JsonResponse 400 (JObj [("error", JStr "invalid file")]), Sample.logged_in).
Proof.
  apply (disallowed_upload_is_rejected Sample.with_models
           (Sample.post_file "/predict-leaf" "leaf.txt" "A") Sample.logged_in
           (mkFile "leaf.txt" "A")); try reflexivity.
  - eexists; reflexivity.
  - right. intros Hok. apply allowed_file_spec in Hok. discriminate Hok.
Defined.

(** ** Credential store *)

Section Credentials.

Context (env : Env).

Lemma dispatch_register req :
  method req = "POST" -> path req = "/register" ->
  dispatch_request env req = register env req.
Proof.
  intros Hm Hp.
  apply (dispatch_view env req "/register" ["GET"; "POST"] "register");
    [rewrite Hp|rewrite Hm|]; reflexivity.
Qed.

Lemma dispatch_login req :
  method req = "POST" -> path req = "/login" ->
  dispatch_request env req = login env req.
Proof.
  intros Hm Hp.
  apply (dispatch_view env req "/login" ["GET"; "POST"] "login");
    [rewrite Hp|rewrite Hm|]; reflexivity.
Qed.

(** [find_one] answers with a document exactly when one has the email. *)
Lemma find_one_user_Some email w :
  (exists u, u ∈ users w /\ Some (user_email u) = email) ->
  exists u, find_one_user email w = (Ok (Some u), w)
            /\ u ∈ users w /\ Some (user_email u) = email.
Proof.
  intros (u & Hin & He). unfold find_one_user, gets.
  destruct (List.find _ (users w)) as [u'|] eqn:E.
  - apply find_some in E as [Hin' He']. apply bool_decide_eq_true in He'.
    exists u'. rewrite <- list_elem_of_In in Hin'. auto.
  - apply list_elem_of_In in Hin. apply (find_none _ _ E u) in Hin.
    apply bool_decide_eq_false in Hin. contradiction.
Qed.

Lemma find_one_user_None email w :
  (forall u, u ∈ users w -> Some (user_email u) <> email) ->
  find_one_user email w = (Ok None, w).
Proof.
  intros Hno. unfold find_one_user, gets.
  destruct (List.find _ (users w)) as [u|] eqn:E; [|reflexivity].
  apply find_some in E as [Hin He]. apply bool_decide_eq_true in He.
  rewrite <- list_elem_of_In in Hin. destruct (Hno u Hin He).
Qed.

(** The three ways in which [register] turns a POST down, in the order
    in which it tests them. *)
Lemma register_missing_field req w :
  method req = "POST" ->
  falsy (form req !! "fullname") || falsy (form req !! "email")
  || falsy (form req !! "password") = true ->
  register env req w
  = (Ok (Redirect "/register"), flashed "danger" "All fields required" w).
Proof.
  intros Hm Hempty. unfold register. rewrite Hm. cbn [String.eqb Ascii.eqb Bool.eqb].
  rewrite Hempty. reflexivity.
Qed.

Lemma register_mismatch req w :
  method req = "POST" ->
  falsy (form req !! "fullname") || falsy (form req !! "email")
  || falsy (form req !! "password") = false ->
  form req !! "password" <> form req !! "confirmPassword" ->
  register env req w
  = (Ok (Redirect "/register"), flashed "danger" "Passwords do not match" w).
Proof.
  intros Hm Hfull Hne. unfold register. rewrite Hm. cbn [String.eqb Ascii.eqb Bool.eqb].
  rewrite Hfull. rewrite (bool_decide_eq_false_2 _ Hne). reflexivity.
Qed.

Lemma register_duplicate req w :
  method req = "POST" ->
  falsy (form req !! "fullname") || falsy (form req !! "email")
  || falsy (form req !! "password") = false ->
  form req !! "password" = form req !! "confirmPassword" ->
  (exists u, u ∈ users w /\ Some (user_email u) = form req !! "email") ->
  register env req w
  = (Ok (Redirect "/register"), flashed "warning" "Email already registered" w).
Proof.
  intros Hm Hfull Heq Hdup. unfold register. rewrite Hm.
  cbn [String.eqb Ascii.eqb Bool.eqb].
  rewrite Hfull. rewrite (bool_decide_eq_true_2 _ Heq). cbn [negb].
  destruct (find_one_user_Some _ w Hdup) as (u & Hfind & _).
  rewrite (bind_ok _ _ _ _ _ Hfind).
  rewrite bool_decide_eq_true_2 by (eexists; reflexivity). reflexivity.
Qed.

(** [register] on a POST that passes the three tests. *)
Lemma register_run req w fullname email password :
  method req = "POST" ->
  form req !! "fullname" = Some fullname -> fullname <> "" ->
  form req !! "email" = Some email -> email <> "" ->
  form req !! "password" = Some password -> password <> "" ->
  form req !! "confirmPassword" = Some password ->
  (forall u, u ∈ users w -> user_email u <> email) ->
  register env req w
  = (Ok (Redirect "/login"),
     mkWorld (users w ++ [mkUser fullname email
                            (generate_password_hash env (ticks w) password)
                            (utcnow env (S (ticks w)))])
             (scans w) (uploads w)
             (mkSession (sess_user (session w))
                (flashes (session w)
                 ++ [("success", "Registration successful! Login now.")]))
             (S (S (ticks w)))).
Proof.
  intros Hm Hfn Hfn' Hem Hem' Hpw Hpw' Hcf Hnew. unfold register. rewrite Hm.
  cbn [String.eqb Ascii.eqb Bool.eqb].
  rewrite Hfn, Hem, Hpw, Hcf. unfold falsy.
  rewrite (proj2 (String.eqb_neq _ _) Hfn'), (proj2 (String.eqb_neq _ _) Hem'),
    (proj2 (String.eqb_neq _ _) Hpw').
  cbn [orb]. rewrite bool_decide_eq_true_2 by reflexivity. cbn [negb].
  rewrite (bind_ok _ _ _ _ _ (find_one_user_None (Some email) w
             (fun u Hin He => Hnew u Hin (f_equal (default "") He)))).
  rewrite bool_decide_eq_false_2 by (intros [? ?]; discriminate).
  reflexivity.
Qed.

(** [login] on a POST, by what [find_one] and [check_password_hash]
    answer. *)
Lemma login_run req w (u : User) :
  method req = "POST" ->
  find_one_user (form req !! "email") w = (Ok (Some u), w) ->
  login env req w
  = match check_password_hash env (user_password u) (form req !! "password") with
    | Some true =>
        (Ok (Redirect "/scan_home"),
         flashed "success"
           ("Welcome " +:+ (if String.eqb (user_fullname u) ""
                            then default "None" (form req !! "email")
                            else user_fullname u))
           (set_session (mkSession (Some (mkSessionUser (form req !! "email")
                                                         (user_fullname u)))
                                   (flashes (session w))) w))
    | Some false =>
        (Ok (Redirect "/login"), flashed "danger" "Invalid credentials" w)
    | None => (Raise HashError, w)
    end.
Proof.
  intros Hm Hfind. unfold login. rewrite Hm. cbn [String.eqb Ascii.eqb Bool.eqb].
  rewrite (bind_ok _ _ _ _ _ Hfind).
  destruct (check_password_hash env (user_password u) (form req !! "password"))
    as [[|]|]; reflexivity.
Qed.


End Credentials.

(** C4. A POST /register whose email is already in the credential store,
    or with an empty or missing required field, or whose password and
    confirmation differ, is sent back to the form with one of the three
    validation messages flashed, and the credential store is unchanged;
    a duplicate email alone is answered "Email already registered". *)
Theorem failed_registration_inserts_nothing (env : Env) (req : Request) (w : World) :
  method req = "POST" -> path req = "/register" ->
  falsy (form req !! "fullname") = true
  \/ falsy (form req !! "email") = true
  \/ falsy (form req !! "password") = true
  \/ form req !! "password" <> form req !! "confirmPassword"
  \/ (exists u, u ∈ users w /\ Some (user_email u) = form req !! "email") ->
  (exists category message,
     (category, message) ∈ [("danger", "All fields required");
                            ("danger", "Passwords do not match");
                            ("warning", "Email already registered")]
     /\ wsgi_app env req w = (Redirect "/register", flashed category message w))
  /\ users (snd (wsgi_app env req w)) = users w
  /\ (falsy (form req !! "fullname") = false ->
      falsy (form req !! "email") = false ->
      falsy (form req !! "password") = false ->
      form req !! "password" = form req !! "confirmPassword" ->
      wsgi_app env req w
      = (Redirect "/register", flashed "warning" "Email already registered" w)).
Proof.
  intros Hm Hp Hbad.
  assert (Hrun : exists category message,
            (category, message) ∈ [("danger", "All fields required");
                                   ("danger", "Passwords do not match");
                                   ("warning", "Email already registered")]
            /\ wsgi_app env req w = (Redirect "/register", flashed category message w)
            /\ (falsy (form req !! "fullname") = false ->
                falsy (form req !! "email") = false ->
                falsy (form req !! "password") = false ->
                form req !! "password" = form req !! "confirmPassword" ->
                category = "warning" /\ message = "Email already registered")).
  { destruct (falsy (form req !! "fullname") || falsy (form req !! "email")
              || falsy (form req !! "password")) eqn:Hfields.
    - exists "danger", "All fields required". split; [repeat constructor|]. split.
      + apply wsgi_app_ok. rewrite dispatch_register by assumption.
        apply register_missing_field; assumption.
      + intros H1 H2 H3. rewrite H1, H2, H3 in Hfields. discriminate Hfields.
    - destruct (decide (form req !! "password" = form req !! "confirmPassword"))
        as [Heq|Hne].
      + apply orb_false_elim in Hfields as [Hfields H3].
        apply orb_false_elim in Hfields as [H1 H2].
        destruct Hbad as [Hb|[Hb|[Hb|[Hb|Hdup]]]]; try congruence.
        exists "warning", "Email already registered". split; [repeat constructor|]. split.
        * apply wsgi_app_ok. rewrite dispatch_register by assumption.
          apply register_duplicate; try assumption.
          rewrite H1, H2, H3. reflexivity.
        * auto.
      + exists "danger", "Passwords do not match". split; [repeat constructor|]. split.
        * apply wsgi_app_ok. rewrite dispatch_register by assumption.
          apply register_mismatch; assumption.
        * intros _ _ _ Heq. contradiction. }
  destruct Hrun as (category & message & Hin & Hrun & Hdup).
  split; [eauto|]. split.
  - rewrite Hrun. reflexivity.
  - intros H1 H2 H3 H4. destruct (Hdup H1 H2 H3 H4) as [-> ->]. exact Hrun.
Qed.

(** Registering a@x.com a second time. *)
Lemma failed_registration_inserts_nothing_witness :
  wsgi_app Sample.with_models
    (Sample.post_form "/register"
       [("fullname", "A"); ("email", "a@x.com"); ("password", "other");
        ("confirmPassword", "other")])
    Sample.anonymous
  = (Redirect "/register",
     mkWorld [Sample.alice] [] ∅
             (mkSession None [("warning", "Email already registered")]) 0).
Proof.
  apply (failed_registration_inserts_nothing Sample.with_models
           (Sample.post_form "/register"
              [("fullname", "A"); ("email", "a@x.com"); ("password", "other");
               ("confirmPassword", "other")])
           Sample.anonymous); try reflexivity.
  do 4 right. exists Sample.alice. split; [apply list_elem_of_here|reflexivity].
Defined.

(** C5. A successful registration appends one user whose password field
    is [generate_password_hash] of the submitted password, so it is the
    plaintext only where the hash function returns its argument; and a
    login is decided by [check_password_hash] on the stored field and the
    submitted password: accepted on [true], refused on [false] whatever
    the stored field is, never by comparing the two strings. *)
Theorem passwords_are_hashed_and_checked :
  (forall (env : Env) (req : Request) (w : World) (fullname email password : string),
     method req = "POST" -> path req = "/register" ->
     form req !! "fullname" = Some fullname -> fullname <> "" ->
     form req !! "email" = Some email -> email <> "" ->
     form req !! "password" = Some password -> password <> "" ->
     form req !! "confirmPassword" = Some password ->
     (forall u, u ∈ users w -> user_email u <> email) ->
     wsgi_app env req w
     = (Redirect "/login",
        mkWorld (users w ++ [mkUser fullname email
                               (generate_password_hash env (ticks w) password)
                               (utcnow env (S (ticks w)))])
                (scans w) (uploads w)
                (mkSession (sess_user (session w))
                   (flashes (session w)
                    ++ [("success", "Registration successful! Login now.")]))
                (S (S (ticks w))))
     /\ (forall u, u ∈ users (snd (wsgi_app env req w)) -> u ∉ users w ->
         user_password u = generate_password_hash env (ticks w) password
         /\ (generate_password_hash env (ticks w) password <> password ->
             user_password u <> password)))
  /\ (forall (env : Env) (req : Request) (w : World) (u : User),
        method req = "POST" -> path req = "/login" ->
        find_one_user (form req !! "email") w = (Ok (Some u), w) ->
        wsgi_app env req w
        = match check_password_hash env (user_password u) (form req !! "password") with
          | Some true =>
              (Redirect "/scan_home",
               flashed "success"
                 ("Welcome " +:+ (if String.eqb (user_fullname u) ""
                                  then default "None" (form req !! "email")
                                  else user_fullname u))
                 (set_session (mkSession (Some (mkSessionUser (form req !! "email")
                                                               (user_fullname u)))
                                         (flashes (session w))) w))
          | Some false =>
              (Redirect "/login", flashed "danger" "Invalid credentials" w)
          | None => (InternalServerError HashError, w)
          end).
Proof.
  split.
  - intros env req w fullname email password Hm Hp Hfn Hfn' Hem Hem' Hpw Hpw' Hcf Hnew.
    assert (Hrun := register_run env req w fullname email password
                      Hm Hfn Hfn' Hem Hem' Hpw Hpw' Hcf Hnew).
    rewrite <- (dispatch_register env req Hm Hp) in Hrun.
    apply wsgi_app_ok in Hrun.
    rewrite Hrun. split; [reflexivity|].
    cbn [snd users]. intros u Hin Hold.
    apply elem_of_app in Hin as [Hin|Hin]; [contradiction|].
    apply list_elem_of_singleton in Hin as ->. cbn [user_password]. auto.
  - intros env req w u Hm Hp Hfind.
    unfold wsgi_app. rewrite dispatch_login by assumption.
    rewrite (login_run env req w u Hm Hfind).
    destruct (check_password_hash env (user_password u) (form req !! "password"))
      as [[|]|]; reflexivity.
Qed.

(** Registration stores the toy hash; alice logs in with her password;
    bob, whose record holds his password in the clear, is refused with
    that very password, because the check rejects the stored field. *)
Lemma passwords_are_hashed_and_checked_witness :
  users (snd (wsgi_app Sample.with_models
                (Sample.post_form "/register"
                   [("fullname", "C"); ("email", "c@x.com"); ("password", "s3cret");
                    ("confirmPassword", "s3cret")])
                Sample.anonymous))
  = [Sample.alice; mkUser "C" "c@x.com" "toy$0$s3cret" 1700000000001000]
  /\ wsgi_app Sample.with_models
       (Sample.post_form "/login" [("email", "a@x.com"); ("password", "pw1234")])
       Sample.anonymous
     = (Redirect "/scan_home",
        mkWorld [Sample.alice] [] ∅
                (mkSession (Some (mkSessionUser (Some "a@x.com") "A"))
                           [("success", "Welcome A")]) 0)
  /\ wsgi_app Sample.with_models
       (Sample.post_form "/login" [("email", "b@x.com"); ("password", "hunter2")])
       Sample.with_bob
     = (Redirect "/login",
        mkWorld [Sample.alice; Sample.bob] [] ∅
                (mkSession None [("danger", "Invalid credentials")]) 0).
Proof.
  split; [|split].
  - rewrite (proj1 (proj1 passwords_are_hashed_and_checked Sample.with_models
                      (Sample.post_form "/register"
                         [("fullname", "C"); ("email", "c@x.com");
                          ("password", "s3cret"); ("confirmPassword", "s3cret")])
                      Sample.anonymous "C" "c@x.com" "s3cret"
                      eq_refl eq_refl eq_refl ltac:(discriminate)
                      eq_refl ltac:(discriminate) eq_refl ltac:(discriminate) eq_refl
                      ltac:(intros u Hin; apply list_elem_of_singleton in Hin as ->;
                            discriminate))).
    reflexivity.
  - apply (proj2 passwords_are_hashed_and_checked Sample.with_models
             (Sample.post_form "/login" [("email", "a@x.com"); ("password", "pw1234")])
             Sample.anonymous Sample.alice eq_refl eq_refl eq_refl).
  - apply (proj2 passwords_are_hashed_and_checked Sample.with_models
             (Sample.post_form "/login" [("email", "b@x.com"); ("password", "hunter2")])
             Sample.with_bob Sample.bob eq_refl eq_refl eq_refl).
Defined.

(** ** Scan log *)

#[local] Instance newer_first_transitive : Transitive newer_first.
Proof. unfold newer_first. intros a b c Hab Hbc. lia. Qed.

#[local] Instance newer_first_total : Total newer_first.
Proof. unfold newer_first. intros a b. lia. Qed.

Section ScanLog.

Context (env : Env).

Lemma dispatch_get_scans req :
  method req = "GET" -> path req = "/scans" ->
  dispatch_request env req = get_scans req.
Proof.
  intros Hm Hp.
  apply (dispatch_view env req "/scans" ["GET"] "get_scans");
    [rewrite Hp|rewrite Hm|]; reflexivity.
Qed.

(** The reply of /scans is a function of the scans collection alone. *)
Lemma get_scans_run req w :
  is_Some (sess_user (session w)) ->
  get_scans req w
  = (Ok (JsonResponse 200
           (JArr (scan_json <$> take 200 (merge_sort newer_first (scans w))))), w).
Proof.
  intros Hu. unfold get_scans. rewrite login_required_user by assumption.
  reflexivity.
Qed.

End ScanLog.

(** C6. GET /scans answers a JSON array of at most 200 scan records in
    non-increasing order of timestamp.  The records are drawn from the
    whole collection: what is left out is no newer than what is listed,
    and is left out only when 200 records are listed; the reply depends on
    the collection alone, not on the user of the session. *)
Theorem scans_lists_the_200_most_recent (env : Env) (req : Request) (w : World) :
  is_Some (sess_user (session w)) ->
  method req = "GET" -> path req = "/scans" ->
  exists docs rest : list Scan,
    wsgi_app env req w = (JsonResponse 200 (JArr (scan_json <$> docs)), w)
    /\ length docs <= 200
    /\ StronglySorted (fun a b => (scan_timestamp b <= scan_timestamp a)%Z) docs
    /\ docs ++ rest ≡ₚ scans w
    /\ (forall d r, d ∈ docs -> r ∈ rest -> (scan_timestamp r <= scan_timestamp d)%Z)
    /\ (rest <> [] -> length docs = 200)
    /\ (forall w2 : World,
          is_Some (sess_user (session w2)) -> scans w2 = scans w ->
          fst (wsgi_app env req w2) = fst (wsgi_app env req w)).
Proof.
  intros Hu Hm Hp.
  assert (Hrun : forall w0, is_Some (sess_user (session w0)) ->
            wsgi_app env req w0
            = (JsonResponse 200
                 (JArr (scan_json <$> take 200 (merge_sort newer_first (scans w0)))),
               w0)).
  { intros w0 Hu0. apply wsgi_app_ok. rewrite dispatch_get_scans by assumption.
    apply get_scans_run. exact Hu0. }
  pose proof (StronglySorted_merge_sort newer_first (scans w)) as Hsorted.
  rewrite <- (take_drop 200 (merge_sort newer_first (scans w))) in Hsorted.
  apply StronglySorted_app in Hsorted as (Hcross & Hdocs & _).
  exists (take 200 (merge_sort newer_first (scans w))),
         (drop 200 (merge_sort newer_first (scans w))).
  split; [apply Hrun; exact Hu|].
  split; [rewrite length_take; lia|].
  split; [exact Hdocs|].
  split; [rewrite take_drop; apply merge_sort_Permutation|].
  split; [intros d r Hd Hr; exact (Hcross d r Hd Hr)|].
  split.
  - intros Hrest. rewrite length_take.
    destruct (decide (length (merge_sort newer_first (scans w)) <= 200)) as [Hle|Hgt];
      [|lia].
    rewrite drop_ge in Hrest by exact Hle. contradiction.
  - intros w2 Hu2 Hsame. rewrite (Hrun w2 Hu2), (Hrun w Hu), Hsame. reflexivity.
Qed.

(** Carol, who made none of the three scans, asks for the list. *)
Lemma scans_lists_the_200_most_recent_witness :
  exists docs rest : list Scan,
    wsgi_app Sample.with_models (Sample.get "/scans") Sample.carol_with_scans
    = (JsonResponse 200 (JArr (scan_json <$> docs)), Sample.carol_with_scans)
    /\ length docs <= 200
    /\ StronglySorted (fun a b => (scan_timestamp b <= scan_timestamp a)%Z) docs
    /\ docs ++ rest ≡ₚ Sample.three_scans
    /\ (forall d r, d ∈ docs -> r ∈ rest -> (scan_timestamp r <= scan_timestamp d)%Z)
    /\ (rest <> [] -> length docs = 200)
    /\ (forall w2 : World,
          is_Some (sess_user (session w2)) -> scans w2 = Sample.three_scans ->
          fst (wsgi_app Sample.with_models (Sample.get "/scans") w2)
          = fst (wsgi_app Sample.with_models (Sample.get "/scans")
                   Sample.carol_with_scans)).
Proof.
  exact (scans_lists_the_200_most_recent Sample.with_models (Sample.get "/scans")
           Sample.carol_with_scans (ex_intro _ _ eq_refl) eq_refl eq_refl).
Defined.

(** She is shown all three, newest first. *)
Example carol_sees_every_scan :
  fst (wsgi_app Sample.with_models (Sample.get "/scans") Sample.carol_with_scans)
  = JsonResponse 200
      (JArr (scan_json <$>
             [LeafScan "Neem" "Powerful antimicrobial, treats many skin conditions." []
                       88%float "n.png" "30_n.png" 30;
              SkinScan "unknown" 0%float "" "20_" 20;
              SkinScan "acne" 0.9%float "a.png" "10_a.png" 10])).
Proof. reflexivity. Qed.

(** * Further properties of the code *)

(** ** Arg-max and maximum of the prediction vector *)

Section Reductions.

Lemma fold_maximum_nan (v : list float) (a : float) :
  is_nan a = true -> fold_left Np.maximum v a = a.
Proof.
  intros Ha. induction v as [|x v IH]; [reflexivity|].
  cbn [fold_left]. unfold Np.maximum at 2. rewrite Ha, orb_true_r. exact IH.
Qed.

(** The scan of [np.argmax] and the fold of [np.max] keep the same running
    maximum: the element at the index found is the maximum found. *)
Lemma argmax_from_lookup (v pre : list float) (best : float) (besti : nat) :
  (pre ++ v) !! besti = Some best ->
  (pre ++ v) !! Np.argmax_from best besti (length pre) v
  = Some (fold_left Np.maximum v best).
Proof.
  revert pre best besti. induction v as [|x v IH]; intros pre best besti Hbest.
  - exact Hbest.
  - cbn [Np.argmax_from fold_left].
    destruct (is_nan best) eqn:Hnan.
    + assert (Np.maximum best x = best) as ->
        by (unfold Np.maximum; rewrite Hnan, orb_true_r; reflexivity).
      rewrite fold_maximum_nan by exact Hnan. exact Hbest.
    + replace (S (length pre)) with (length (pre ++ [x]))
        by (rewrite length_app; cbn; lia).
      rewrite (cons_middle x pre v), app_assoc.
      destruct (x <=? best)%float eqn:Hle; cbn [negb].
      * assert (Np.maximum best x = best) as ->
          by (unfold Np.maximum; rewrite Hle; reflexivity).
        apply IH. rewrite <- app_assoc. exact Hbest.
      * assert (Np.maximum best x = x) as ->
          by (unfold Np.maximum; rewrite Hle, Hnan; reflexivity).
        apply IH. rewrite lookup_app_l by (rewrite length_app; cbn; lia).
        apply list_lookup_middle. reflexivity.
Qed.

Lemma argmax_from_lookup_max (preds : list float) (idx : nat) (top : float) :
  Np.argmax preds = Some idx -> Np.max preds = Some top -> preds !! idx = Some top.
Proof.
  destruct preds as [|x v]; [discriminate|].
  cbn [Np.argmax Np.max]. intros [= <-] [= <-].
  exact (argmax_from_lookup v [x] x 0 eq_refl).
Qed.

End Reductions.



(** ** Labels of the classifiers *)

Section Labels.

Context (env : Env).

Lemma leaf_label_known filepath w label conf :
  fst (predict_leaf_image env filepath w) = Ok (label, conf) ->
  label ∈ leaf_class_names \/ label = "Not a Leaf".
Proof.
  unfold predict_leaf_image. destruct (leaf_model env) as [m|].
  - unfold bind, keras_predict.
    destruct (uploads w !! filepath) as [data|]; [|discriminate].
    destruct (m data) as [preds|]; [|discriminate].
    destruct (Np.argmax preds) as [idx|]; [|discriminate]. cbn [lift_option ret].
    destruct (Np.max preds) as [top|]; [|discriminate]. cbn [lift_option ret].
    rewrite guarded_getitem.
    destruct (top * 100 <? 10)%float; cbn [fst ret]; intros [= <- <-]; [auto|].
    left. destruct (leaf_class_names !! idx) as [name|] eqn:E; cbn [default].
    + exact (list_elem_of_lookup_2 _ _ _ E).
    + repeat constructor.
  - cbn [fst ret]. intros [= <- <-]. left. repeat constructor.
Qed.

Lemma skin_label_known filepath w label conf :
  fst (predict_skin_image env filepath w) = Ok (label, conf) ->
  label ∈ disease_classes env \/ label = "unknown".
Proof.
  unfold predict_skin_image. destruct (skin_model env) as [m|].
  - destruct (disease_classes env) as [|c cs] eqn:Hcs.
    + cbn [fst ret]. intros [= <- <-]. auto.
    + unfold bind, keras_predict.
      destruct (uploads w !! filepath) as [data|]; [|discriminate].
      destruct (m data) as [preds|]; [|discriminate].
      destruct (Np.argmax preds) as [idx|]; [|discriminate]. cbn [lift_option ret].
      destruct (Np.max preds) as [top|]; [|discriminate]. cbn [lift_option ret].
      rewrite guarded_getitem.
      destruct (top <? 0.05)%float; cbn [fst ret]; intros [= <- <-]; [auto|].
      destruct ((c :: cs) !! idx) as [name|] eqn:E; cbn [default]; [|auto].
      left. exact (list_elem_of_lookup_2 _ _ _ E).
  - cbn [fst ret]. intros [= <- <-]. auto.
Qed.

End Labels.

(** X2. A classifier never invents a label: what the leaf classifier
    returns is one of the twelve class names or ["Not a Leaf"], what the
    skin classifier returns is a loaded class name or ["unknown"],
    whatever the model puts out. *)
Theorem classifier_labels_are_known
    (env : Env) (filepath : string) (w : World) (label : string) (conf : float) :
  (fst (predict_leaf_image env filepath w) = Ok (label, conf) ->
   label ∈ leaf_class_names ++ ["Not a Leaf"])
  /\ (fst (predict_skin_image env filepath w) = Ok (label, conf) ->
      label ∈ disease_classes env ++ ["unknown"]).
Proof.
  split; intros H; apply elem_of_app.
  - destruct (leaf_label_known env filepath w label conf H) as [?| ->];
      [left; assumption|right; repeat constructor].
  - destruct (skin_label_known env filepath w label conf H) as [?| ->];
      [left; assumption|right; repeat constructor].
Qed.

Lemma classifier_labels_are_known_witness :
  "Aloevera" ∈ leaf_class_names ++ ["Not a Leaf"]
  /\ "eczema" ∈ disease_classes Sample.with_models ++ ["unknown"].
Proof.
  split.
  - apply (proj1 (classifier_labels_are_known Sample.with_models Sample.stored_at
                    (Sample.stored "A") "Aloevera" 90%float)). reflexivity.
  - apply (proj2 (classifier_labels_are_known Sample.with_models Sample.stored_at
                    (Sample.stored "A") "eczema" 0.7%float)). reflexivity.
Defined.

Lemma bool_decide_iff_of_eq (P Q : Prop) `{Decision P, Decision Q} :
  bool_decide P = bool_decide Q -> (P <-> Q).
Proof.
  intros E. rewrite <- (bool_decide_spec P), <- (bool_decide_spec Q), E. tauto.
Qed.

(** X3. Of the labels the leaf classifier can return, exactly Bhrami,
    Unknown and Not a Leaf have no entry in [leaf_info], so that the leaf
    endpoint answers them with "No info"; and the entries for Ginger,
    Lemon, Guava, Henna, Rose and Ashoka belong to no label it returns. *)
Theorem leaf_info_covers_all_but_three_labels
    (env : Env) (filepath : string) (w : World) (label : string) (conf : float) :
  fst (predict_leaf_image env filepath w) = Ok (label, conf) ->
  (leaf_info !! label = None <-> label ∈ ["Bhrami"; "Unknown"; "Not a Leaf"])
  /\ label ∉ ["Ginger"; "Lemon"; "Guava"; "Henna"; "Rose"; "Ashoka"].
Proof.
  intros H. apply leaf_label_known in H. unfold leaf_class_names in H.
  rewrite !elem_of_cons in H.
  assert (Hcases : label ∈ ["Aloevera"; "Amruthaballi"; "Arali"; "Bhrami";
                            "Curry leaves"; "Doddpathre"; "Hibiscus"; "Mint"; "Neem";
                            "Tulsi"; "Turmeric"; "Unknown"; "Not a Leaf"]).
  { rewrite !elem_of_cons. tauto. }
  clear H. rewrite !elem_of_cons in Hcases.
  repeat (destruct Hcases as [->|Hcases]);
    [..|apply elem_of_nil in Hcases; contradiction];
    (split;
     [match goal with |- ?P <-> ?Q => apply (bool_decide_iff_of_eq P Q) end;
      vm_compute; reflexivity
     |match goal with |- ?x ∉ ?l => apply (bool_decide_eq_false_1 (x ∈ l)) end;
      vm_compute; reflexivity]).
Qed.

Lemma leaf_info_covers_all_but_three_labels_witness :
  (leaf_info !! "Not a Leaf" = None
   <-> "Not a Leaf" ∈ ["Bhrami"; "Unknown"; "Not a Leaf"])
  /\ "Not a Leaf" ∉ ["Ginger"; "Lemon"; "Guava"; "Henna"; "Rose"; "Ashoka"].
Proof.
  exact (leaf_info_covers_all_but_three_labels Sample.with_models Sample.stored_at
           (Sample.stored "D") "Not a Leaf" 9.5%float eq_refl).
Defined.

(** ** The allow-list, once more *)

(** X4. [allowed_file] reads the text after the last dot only: a name
    [stem.ext] whose [ext] has no dot is accepted exactly when [ext] is
    png, jpg or jpeg up to case, whatever the stem, and a name without a
    dot is refused. *)
Theorem allowed_file_reads_the_last_extension (stem ext : string) :
  PyStr.contains "." ext = false ->
  allowed_file (stem +:+ "." +:+ ext)
  = bool_decide (PyStr.lower ext ∈ ["png"; "jpg"; "jpeg"])
  /\ allowed_file ext = false.
Proof.
  intros Hno. split.
  - unfold allowed_file, PyStr.rsplit1.
    change ("." +:+ ext) with (String "." ext).
    rewrite contains_app, (rsplit_last_app "." stem ext Hno).
    destruct stem; reflexivity.
  - unfold allowed_file. rewrite Hno, andb_false_r. reflexivity.
Qed.

(** "leaf.png.txt" is refused and "notes.txt.PNG" accepted. *)
Lemma allowed_file_reads_the_last_extension_witness :
  (allowed_file "leaf.png.txt" = false /\ allowed_file "txt" = false)
  /\ (allowed_file "notes.txt.PNG" = true /\ allowed_file "PNG" = false).
Proof.
  split.
  - exact (allowed_file_reads_the_last_extension "leaf.png" "txt" eq_refl).
  - exact (allowed_file_reads_the_last_extension "notes.txt" "PNG" eq_refl).
Defined.

(** ** Start-up *)

Section StartupFacts.

Context (boot : Boot).

Lemma try_load_model_None model_path :
  TF_AVAILABLE boot = false
  \/ path_exists boot model_path = false
  \/ load_model boot model_path = None ->
  try_load_model boot model_path = None.
Proof.
  unfold try_load_model. intros [->|[H|H]]; [reflexivity| |].
  - rewrite H. destruct (TF_AVAILABLE boot); reflexivity.
  - rewrite H. destruct (TF_AVAILABLE boot), (path_exists boot model_path); reflexivity.
Qed.

Lemma filter_all_blank (lines : list string) :
  (forall line, line ∈ lines -> strip boot line = "") ->
  List.filter (fun line => negb (String.eqb (strip boot line) "")) lines = [].
Proof.
  induction lines as [|l lines IH]; intros Hall; [reflexivity|].
  cbn [List.filter]. rewrite (Hall l) by constructor. cbn.
  apply IH. intros line Hin. apply Hall. constructor. exact Hin.
Qed.

Lemma try_load_classes_elem (c : string) :
  c ∈ try_load_classes boot ->
  c <> ""
  /\ exists lines line, read_lines boot (CLASSES_TXT boot) = Some lines
                        /\ line ∈ lines /\ c = strip boot line.
Proof.
  unfold try_load_classes.
  destruct (TF_AVAILABLE boot); [|intros H; apply elem_of_nil in H; contradiction].
  destruct (path_exists boot (CLASSES_TXT boot));
    [|intros H; apply elem_of_nil in H; contradiction].
  destruct (read_lines boot (CLASSES_TXT boot)) as [lines|];
    [|intros H; apply elem_of_nil in H; contradiction].
  intros H. apply list_elem_of_fmap in H as (line & -> & Hin).
  apply list_elem_of_In, filter_In in Hin as [Hin Hne].
  apply negb_true_iff, String.eqb_neq in Hne.
  split; [exact Hne|]. exists lines, line.
  rewrite list_elem_of_In. auto.
Qed.

End StartupFacts.

(** X5. Start-up degrades to the sentinels.  If TensorFlow is missing,
    or the leaf model file is, or loading it raises, the leaf classifier
    answers ("Unknown", 0.0) on every file; the skin classifier answers
    ("unknown", 0.0) on every file in the same three cases for its model,
    and also when [classes.txt] is missing, unreadable, or has blank
    lines only, although the model is loaded. *)
Theorem startup_degrades_to_sentinels (boot : Boot) (e : Env) :
  (TF_AVAILABLE boot = false
   \/ path_exists boot (LEAF_MODEL_PATH boot) = false
   \/ load_model boot (LEAF_MODEL_PATH boot) = None ->
   forall filepath w,
     predict_leaf_image (started boot e) filepath w = (Ok ("Unknown", 0%float), w))
  /\ (TF_AVAILABLE boot = false
      \/ path_exists boot (SKIN_MODEL_PATH boot) = false
      \/ load_model boot (SKIN_MODEL_PATH boot) = None
      \/ path_exists boot (CLASSES_TXT boot) = false
      \/ read_lines boot (CLASSES_TXT boot) = None
      \/ (exists lines, read_lines boot (CLASSES_TXT boot) = Some lines
                        /\ forall line, line ∈ lines -> strip boot line = "") ->
      forall filepath w,
        predict_skin_image (started boot e) filepath w = (Ok ("unknown", 0%float), w)).
Proof.
  split.
  - intros H filepath w. unfold predict_leaf_image, started. cbn [leaf_model].
    rewrite (try_load_model_None boot _ H). reflexivity.
  - intros H filepath w.
    assert (Hglobals : try_load_model boot (SKIN_MODEL_PATH boot) = None
                       \/ try_load_classes boot = []).
    { destruct H as [H|[H|[H|[H|[H|(lines & Hl & Hall)]]]]].
      - left. apply try_load_model_None. auto.
      - left. apply try_load_model_None. auto.
      - left. apply try_load_model_None. auto.
      - right. unfold try_load_classes. rewrite H.
        destruct (TF_AVAILABLE boot); reflexivity.
      - right. unfold try_load_classes. rewrite H.
        destruct (TF_AVAILABLE boot), (path_exists boot (CLASSES_TXT boot)); reflexivity.
      - right. unfold try_load_classes. rewrite Hl, (filter_all_blank boot lines Hall).
        destruct (TF_AVAILABLE boot), (path_exists boot (CLASSES_TXT boot)); reflexivity. }
    unfold predict_skin_image, started. cbn [skin_model disease_classes].
    destruct Hglobals as [-> | ->]; [reflexivity|].
    destruct (try_load_model boot _); reflexivity.
Qed.

(** No TensorFlow; and a skin model without its class list, on a file on
    which the model itself would raise. *)
Lemma startup_degrades_to_sentinels_witness :
  predict_leaf_image (started SampleBoot.no_tensorflow Sample.no_models)
                     Sample.stored_at (Sample.stored "A")
  = (Ok ("Unknown", 0%float), Sample.stored "A")
  /\ predict_skin_image (started SampleBoot.no_class_list Sample.no_models)
                        Sample.stored_at (Sample.stored "Z")
     = (Ok ("unknown", 0%float), Sample.stored "Z").
Proof.
  split.
  - apply (proj1 (startup_degrades_to_sentinels SampleBoot.no_tensorflow
                    Sample.no_models)).
    left. reflexivity.
  - apply (proj2 (startup_degrades_to_sentinels SampleBoot.no_class_list
                    Sample.no_models)).
    do 3 right. left. reflexivity.
Defined.

(** X6. After start-up the skin classifier never returns an empty label:
    its label is ["unknown"] or a line of [classes.txt], stripped and not
    blank. *)
Theorem skin_label_is_a_stripped_line
    (boot : Boot) (e : Env) (filepath : string) (w : World)
    (label : string) (conf : float) :
  fst (predict_skin_image (started boot e) filepath w) = Ok (label, conf) ->
  label <> ""
  /\ (label = "unknown"
      \/ exists lines line, read_lines boot (CLASSES_TXT boot) = Some lines
                            /\ line ∈ lines /\ label = strip boot line).
Proof.
  intros H. apply skin_label_known in H. cbn [started disease_classes] in H.
  destruct H as [H| ->].
  - apply try_load_classes_elem in H as [Hne Hline]. auto.
  - split; [discriminate|auto].
Qed.

Lemma skin_label_is_a_stripped_line_witness :
  "eczema" <> ""
  /\ ("eczema" = "unknown"
      \/ exists lines line,
           read_lines SampleBoot.on_disk (CLASSES_TXT SampleBoot.on_disk) = Some lines
           /\ line ∈ lines /\ "eczema" = strip SampleBoot.on_disk line).
Proof.
  exact (skin_label_is_a_stripped_line SampleBoot.on_disk Sample.no_models
           Sample.stored_at (Sample.stored "A") "eczema" 0.7%float eq_refl).
Defined.

(** ** Outcomes of the prediction endpoints *)

Section Outcomes.

Context (env : Env).

(** The leaf endpoint on an accepted upload, fault or not. *)
Lemma predict_leaf_outcomes req w file :
  is_Some (sess_user (session w)) ->
  files req !! "image" = Some file ->
  allowed_file (file_name file) = true ->
  let t := utcnow env (ticks w) in
  let dst := stored_path env t (file_name file) in
  let saved := set_uploads (<[dst := file_data file]> (uploads w))
                           (set_ticks (S (ticks w)) w) in
  predict_leaf env req w
  = if fs_writable env dst then
      match fst (predict_leaf_image env dst saved) with
      | Ok (leaf_name, conf) =>
          let info := default ("No info", []) (leaf_info !! leaf_name) in
          (Ok (JsonResponse 200
                 (JObj [("leaf_name", JStr leaf_name); ("uses", JStr (fst info));
                        ("diseases", JArr (JStr <$> snd info));
                        ("confidence", JNum conf)])),
           mkWorld (users w)
                   (scans w ++ [LeafScan leaf_name (fst info) (snd info) conf
                                  (file_name file)
                                  (stored_name env t (file_name file))
                                  (utcnow env (S (ticks w)))])
                   (<[dst := file_data file]> (uploads w))
                   (session w) (S (S (ticks w))))
      | Raise e => (Raise e, saved)
      end
    else (Raise (OSError dst), set_ticks (S (ticks w)) w).
Proof.
  intros Hu Hf Hok t dst saved. unfold predict_leaf.
  rewrite login_required_user by assumption.
  rewrite Hf, (allowed_file_nonempty _ Hok).
  unfold bind at 1. unfold now at 1.
  unfold bind at 1. unfold save at 1.
  fold t. fold (stored_name env t (file_name file)).
  fold (stored_path env t (file_name file)). fold dst.
  destruct (fs_writable env dst); [|reflexivity].
  change (set_uploads _ (set_ticks (S (ticks w)) w)) with saved.
  unfold bind at 1. rewrite (predict_leaf_image_pure env dst saved).
  destruct (fst (predict_leaf_image env dst saved)) as [[leaf_name conf]|e];
    reflexivity.
Qed.

(** Both endpoints through the application. *)
Lemma leaf_endpoint_outcomes_aux req w file :
  is_Some (sess_user (session w)) ->
  method req = "POST" -> path req = "/predict-leaf" ->
  files req !! "image" = Some file ->
  allowed_file (file_name file) = true ->
  let t := utcnow env (ticks w) in
  let dst := stored_path env t (file_name file) in
  let saved := set_uploads (<[dst := file_data file]> (uploads w))
                           (set_ticks (S (ticks w)) w) in
  wsgi_app env req w
  = if fs_writable env dst then
      match fst (predict_leaf_image env dst saved) with
      | Ok (leaf_name, conf) =>
          let info := default ("No info", []) (leaf_info !! leaf_name) in
          (JsonResponse 200
             (JObj [("leaf_name", JStr leaf_name); ("uses", JStr (fst info));
                    ("diseases", JArr (JStr <$> snd info));
                    ("confidence", JNum conf)]),
           mkWorld (users w)
                   (scans w ++ [LeafScan leaf_name (fst info) (snd info) conf
                                  (file_name file)
                                  (stored_name env t (file_name file))
                                  (utcnow env (S (ticks w)))])
                   (<[dst := file_data file]> (uploads w))
                   (session w) (S (S (ticks w))))
      | Raise e => (InternalServerError e, saved)
      end
    else (InternalServerError (OSError dst), set_ticks (S (ticks w)) w).
Proof.
  intros Hu Hm Hp Hf Hok t dst saved. unfold wsgi_app.
  rewrite dispatch_predict_leaf by assumption.
  rewrite (predict_leaf_outcomes req w file Hu Hf Hok).
  fold t. fold dst. fold saved.
  destruct (fs_writable env dst); [|reflexivity].
  destruct (fst (predict_leaf_image env dst saved)) as [[leaf_name conf]|e];
    reflexivity.
Qed.

Lemma skin_endpoint_outcomes_aux req w file :
  is_Some (sess_user (session w)) ->
  method req = "POST" -> path req = "/predict" ->
  files req !! "image" = Some file ->
  let t := utcnow env (ticks w) in
  let dst := stored_path env t (file_name file) in
  let saved := set_uploads (<[dst := file_data file]> (uploads w))
                           (set_ticks (S (ticks w)) w) in
  wsgi_app env req w
  = if fs_writable env dst then
      match fst (predict_skin_image env dst saved) with
      | Ok (pred_class, conf) =>
          (JsonResponse 200
             (JObj [("predicted_class", JStr pred_class);
                    ("confidence", JNum conf);
                    ("recommendation",
                     JStr (default "No recommendation"
                                   (recommendations !! pred_class)))]),
           mkWorld (users w)
                   (scans w ++ [SkinScan pred_class conf (file_name file)
                                  (stored_name env t (file_name file))
                                  (utcnow env (S (ticks w)))])
                   (<[dst := file_data file]> (uploads w))
                   (session w) (S (S (ticks w))))
      | Raise e => (InternalServerError e, saved)
      end
    else (InternalServerError (OSError dst), set_ticks (S (ticks w)) w).
Proof.
  intros Hu Hm Hp Hf t dst saved. unfold wsgi_app.
  rewrite dispatch_predict_skin by assumption.
  rewrite (predict_skin_run env req w file Hu Hf).
  fold t. fold dst. fold saved.
  destruct (fs_writable env dst); [|reflexivity].
  destruct (fst (predict_skin_image env dst saved)) as [[pred_class conf]|e];
    reflexivity.
Qed.

End Outcomes.

(** X7. An accepted upload to /predict-leaf ends in one of three ways.
    If the write is refused, the answer is a 500 and nothing is stored.
    If the classifier raises, the answer is a 500, the upload stays on disk
    and no scan record is written: saving and logging are not atomic.
    Otherwise the answer is 200, the upload is stored and one record is
    appended. *)
Theorem leaf_endpoint_outcomes
    (env : Env) (req : Request) (w : World) (file : FileStorage) :
  is_Some (sess_user (session w)) ->
  method req = "POST" -> path req = "/predict-leaf" ->
  files req !! "image" = Some file ->
  allowed_file (file_name file) = true ->
  let t := utcnow env (ticks w) in
  let dst := stored_path env t (file_name file) in
  let saved := mkWorld (users w) (scans w) (<[dst := file_data file]> (uploads w))
                       (session w) (S (ticks w)) in
  wsgi_app env req w
  = if fs_writable env dst then
      match fst (predict_leaf_image env dst saved) with
      | Ok (leaf_name, conf) =>
          let info := default ("No info", []) (leaf_info !! leaf_name) in
          (JsonResponse 200
             (JObj [("leaf_name", JStr leaf_name); ("uses", JStr (fst info));
                    ("diseases", JArr (JStr <$> snd info));
                    ("confidence", JNum conf)]),
           mkWorld (users w)
                   (scans w ++ [LeafScan leaf_name (fst info) (snd info) conf
                                  (file_name file)
                                  (stored_name env t (file_name file))
                                  (utcnow env (S (ticks w)))])
                   (<[dst := file_data file]> (uploads w))
                   (session w) (S (S (ticks w))))
      | Raise e => (InternalServerError e, saved)
      end
    else (InternalServerError (OSError dst),
          mkWorld (users w) (scans w) (uploads w) (session w) (S (ticks w))).
Proof.
  intros Hu Hm Hp Hf Hok t dst saved.
  exact (leaf_endpoint_outcomes_aux env req w file Hu Hm Hp Hf Hok).
Qed.

(** A file "leaf.png" that is no image: saved, then a 500. *)
Lemma leaf_endpoint_outcomes_witness :
  wsgi_app Sample.with_models (Sample.post_file "/predict-leaf" "leaf.png" "Z")
           Sample.logged_in
  = (InternalServerError ModelError,
     mkWorld [Sample.alice] []
             {[ "/srv/app/uploads/1700000000000_leaf.png" := "Z" ]}
             (session Sample.logged_in) 1).
Proof.
  apply (leaf_endpoint_outcomes Sample.with_models
           (Sample.post_file "/predict-leaf" "leaf.png" "Z") Sample.logged_in
           (mkFile "leaf.png" "Z")); try reflexivity.
  eexists; reflexivity.
Defined.

(** X8. Whenever a prediction endpoint answers 200 to an upload, exactly
    one scan record was appended; the record carries the label and the
    confidence of the answer and the name of the upload, and its
    [saved_name] is the file of the uploads directory that holds the
    uploaded bytes. *)
Theorem scan_record_matches_response
    (env : Env) (req : Request) (w : World) (file : FileStorage) :
  is_Some (sess_user (session w)) ->
  method req = "POST" ->
  path req = "/predict-leaf" \/ path req = "/predict" ->
  files req !! "image" = Some file ->
  status_code (fst (wsgi_app env req w)) = 200%Z ->
  exists (d : Scan) (advice : list (string * Json)),
    scans (snd (wsgi_app env req w)) = scans w ++ [d]
    /\ users (snd (wsgi_app env req w)) = users w
    /\ scan_filename d = file_name file
    /\ uploads (snd (wsgi_app env req w))
         !! os_path_join (UPLOAD_FOLDER env) (scan_saved_name d)
       = Some (file_data file)
    /\ (fst (wsgi_app env req w)
        = JsonResponse 200
            (JObj (("leaf_name", JStr (scan_label d)) :: advice
                   ++ [("confidence", JNum (scan_confidence d))]))
        \/ fst (wsgi_app env req w)
           = JsonResponse 200
               (JObj ([("predicted_class", JStr (scan_label d));
                       ("confidence", JNum (scan_confidence d))] ++ advice))).
Proof.
  intros Hu Hm [Hp|Hp] Hf H200.
  - destruct (allowed_file (file_name file)) eqn:Hok.
    + pose proof (leaf_endpoint_outcomes_aux env req w file Hu Hm Hp Hf Hok) as Hrun.
      cbv zeta in Hrun. rewrite Hrun in H200 |- *.
      destruct (fs_writable env _); [|discriminate H200].
      destruct (fst (predict_leaf_image env _ _)) as [[leaf_name conf]|e];
        [|discriminate H200].
      eexists (LeafScan leaf_name _ _ conf _ _ _), [_; _].
      cbn [fst snd scans users uploads scan_filename scan_saved_name scan_label
           scan_confidence].
      repeat split; [apply lookup_insert_eq|left; reflexivity].
    + assert (Hrun : wsgi_app env req w
                     = (JsonResponse 400 (JObj [("error", JStr "invalid file")]), w)).
      { apply wsgi_app_ok. rewrite dispatch_predict_leaf by assumption.
        apply (predict_leaf_rejects env req w file); try assumption.
        rewrite Hok. apply orb_true_r. }
      rewrite Hrun in H200. discriminate H200.
  - pose proof (skin_endpoint_outcomes_aux env req w file Hu Hm Hp Hf) as Hrun.
    cbv zeta in Hrun. rewrite Hrun in H200 |- *.
    destruct (fs_writable env _); [|discriminate H200].
    destruct (fst (predict_skin_image env _ _)) as [[pred_class conf]|e];
      [|discriminate H200].
    eexists (SkinScan pred_class conf _ _ _), [_].
    cbn [fst snd scans users uploads scan_filename scan_saved_name scan_label
         scan_confidence].
    repeat split; [apply lookup_insert_eq|right; reflexivity].
Qed.

(** Carol's text file, sent to the skin endpoint. *)
Lemma scan_record_matches_response_witness :
  exists (d : Scan) (advice : list (string * Json)),
    scans (snd (wsgi_app Sample.with_models
                  (Sample.post_file "/predict" "notes.txt" "A") Sample.logged_in))
    = scans Sample.logged_in ++ [d]
    /\ users (snd (wsgi_app Sample.with_models
                     (Sample.post_file "/predict" "notes.txt" "A") Sample.logged_in))
       = users Sample.logged_in
    /\ scan_filename d = "notes.txt"
    /\ uploads (snd (wsgi_app Sample.with_models
                       (Sample.post_file "/predict" "notes.txt" "A") Sample.logged_in))
         !! os_path_join (UPLOAD_FOLDER Sample.with_models) (scan_saved_name d)
       = Some "A"
    /\ (fst (wsgi_app Sample.with_models
               (Sample.post_file "/predict" "notes.txt" "A") Sample.logged_in)
        = JsonResponse 200
            (JObj (("leaf_name", JStr (scan_label d)) :: advice
                   ++ [("confidence", JNum (scan_confidence d))]))
        \/ fst (wsgi_app Sample.with_models
                  (Sample.post_file "/predict" "notes.txt" "A") Sample.logged_in)
           = JsonResponse 200
               (JObj ([("predicted_class", JStr (scan_label d));
                       ("confidence", JNum (scan_confidence d))] ++ advice))).
Proof.
  exact (scan_record_matches_response Sample.with_models
           (Sample.post_file "/predict" "notes.txt" "A") Sample.logged_in
           (mkFile "notes.txt" "A") (ex_intro _ _ eq_refl) eq_refl
           (or_intror eq_refl) eq_refl eq_refl).
Defined.

(** ** What a request can change *)

Section Footprint.

Context (env : Env).

(** A request is answered by the router itself, or by a view of the URL
    map. *)
Lemma wsgi_app_cases req w :
  snd (wsgi_app env req w) = w
  \/ exists rule declared name view,
       In (rule, declared, name) url_rules /\ rule = path req
       /\ In (name, view) (view_functions env)
       /\ snd (wsgi_app env req w) = snd (view req w).
Proof.
  unfold wsgi_app, dispatch_request.
  destruct (match_rule (path req)) as [[[rule declared] name]|] eqn:Hrule;
    [|left; reflexivity].
  destruct (existsb _ _).
  - destruct (List.find _ (view_functions env)) as [[name' view]|] eqn:Hview;
      [|left; reflexivity].
    right. unfold match_rule in Hrule.
    apply find_some in Hrule as [Hin Heq]. apply String.eqb_eq in Heq.
    apply find_some in Hview as [Hin' Heq']. apply String.eqb_eq in Heq'.
    cbn [fst] in Heq, Heq'. subst name'.
    exists rule, declared, name, view. repeat split; try assumption.
    destruct (view req w) as [[r|e] w']; reflexivity.
  - left. destruct (String.eqb (method req) "OPTIONS"); reflexivity.
Qed.

Ltac run_view :=
  unfold home, explore, scan_home, scan_leaf_page, scan_skin_page, register,
    login, logout, predict_leaf, predict_skin, get_scans, find_recent_scans,
    login_required, hash_password, insert_one_user, insert_one_scan,
    find_one_user, flash, now, save, lift_option, raise, modify, gets, bind, ret;
  repeat (cbn beta iota in *;
          first [ progress simplify_eq
                | match goal with
                  | H : predict_leaf_image _ _ _ = _ |- _ =>
                      rewrite predict_leaf_image_pure in H
                  | H : predict_skin_image _ _ _ = _ |- _ =>
                      rewrite predict_skin_image_pure in H
                  end
                | case_match ]);
  cbn.

(** What one view can do to the collections and to the session user. *)
Lemma view_footprint name view req w :
  In (name, view) (view_functions env) ->
  (users (snd (view req w)) = users w
   \/ exists u, users (snd (view req w)) = users w ++ [u]
                /\ (forall u', u' ∈ users w -> user_email u' <> user_email u)
                /\ name = "register"
                /\ scans (snd (view req w)) = scans w)
  /\ (scans (snd (view req w)) = scans w
      \/ exists d, scans (snd (view req w)) = scans w ++ [d]
                   /\ users (snd (view req w)) = users w
                   /\ (name = "predict_leaf" \/ name = "predict_skin"))
  /\ (name <> "login" -> name <> "logout" ->
      sess_user (session (snd (view req w))) = sess_user (session w)).
Proof.
  intros Hin. cbn [In view_functions] in Hin.
  repeat (destruct Hin as [[= <- <-]|Hin]); [..|contradiction].
  all: run_view; try solve [intuition eauto 6].
  split; [right|auto]. eexists. split; [reflexivity|]. split; [|auto].
  cbn [user_email]. intros u' Hin Heq.
  destruct (form req !! "email") as [e|] eqn:He;
    [|cbn in H0; rewrite orb_true_r in H0; discriminate H0].
  cbn [default] in Heq. apply bool_decide_eq_false in H2. apply H2.
  destruct (List.find _ (users w)) as [u|] eqn:Hfind; [eauto|].
  apply list_elem_of_In in Hin. apply (find_none _ _ Hfind) in Hin.
  apply bool_decide_eq_false in Hin. exfalso. apply Hin. rewrite Heq. reflexivity.
Qed.


(** Each of these endpoints is bound to one rule. *)
Lemma rule_of_endpoint rule declared name :
  In (rule, declared, name) url_rules ->
  (name = "register" -> rule = "/register")
  /\ (name = "predict_leaf" -> rule = "/predict-leaf")
  /\ (name = "predict_skin" -> rule = "/predict")
  /\ (name = "login" -> rule = "/login")
  /\ (name = "logout" -> rule = "/logout").
Proof.
  intros Hin. cbn [In url_rules] in Hin.
  repeat (destruct Hin as [[= <- <- <-]|Hin]); [..|contradiction];
    repeat split; intros H; first [reflexivity | discriminate H].
Qed.

(** The footprint of a whole request. *)
Lemma request_footprint req w :
  (users (snd (wsgi_app env req w)) = users w
   \/ exists u, users (snd (wsgi_app env req w)) = users w ++ [u]
                /\ (forall u', u' ∈ users w -> user_email u' <> user_email u)
                /\ path req = "/register"
                /\ scans (snd (wsgi_app env req w)) = scans w)
  /\ (scans (snd (wsgi_app env req w)) = scans w
      \/ exists d, scans (snd (wsgi_app env req w)) = scans w ++ [d]
                   /\ users (snd (wsgi_app env req w)) = users w
                   /\ (path req = "/predict-leaf" \/ path req = "/predict"))
  /\ (path req <> "/login" -> path req <> "/logout" ->
      sess_user (session (snd (wsgi_app env req w))) = sess_user (session w)).
Proof.
  destruct (wsgi_app_cases req w)
    as [->|(rule & declared & name & view & Hrule & -> & Hview & ->)];
    [auto|].
  destruct (view_footprint name view req w Hview) as (Husers & Hscans & Hsess).
  destruct (rule_of_endpoint _ _ _ Hrule) as (Hreg & Hleaf & Hskin & Hlogin & Hlogout).
  split; [|split].
  - destruct Husers as [?|(u & ? & ? & ? & ?)]; [auto|]. right. exists u. auto.
  - destruct Hscans as [?|(d & ? & ? & [?|?])]; [auto| |]; right; exists d; auto.
  - intros Hnl Hno. apply Hsess; intros ->; auto.
Qed.


End Footprint.

(** X9. The users and the scans are append-only: a request leaves both
    collections as they were or appends one document to one of them,
    never removing or rewriting a stored one; only /register appends a
    user and only /predict-leaf and /predict append a scan. *)
Theorem collections_are_append_only (env : Env) (req : Request) (w : World) :
  (exists us, users (snd (wsgi_app env req w)) = users w ++ us
              /\ length us <= 1
              /\ (path req <> "/register" -> us = []))
  /\ (exists ss, scans (snd (wsgi_app env req w)) = scans w ++ ss
                 /\ length ss <= 1
                 /\ (path req <> "/predict-leaf" -> path req <> "/predict" -> ss = []))
  /\ (users (snd (wsgi_app env req w)) = users w
      \/ scans (snd (wsgi_app env req w)) = scans w).
Proof.
  destruct (request_footprint env req w) as (Husers & Hscans & _).
  split; [|split].
  - destruct Husers as [->|(u & -> & _ & Hp & _)].
    + exists []. rewrite app_nil_r. cbn. auto.
    + exists [u]. cbn. split; [reflexivity|]. split; [lia|]. intros Hne. contradiction.
  - destruct Hscans as [->|(d & -> & _ & Hp)].
    + exists []. rewrite app_nil_r. cbn. auto.
    + exists [d]. cbn. split; [reflexivity|]. split; [lia|].
      intros H1 H2. destruct Hp; contradiction.
  - destruct Husers as [?|(u & _ & _ & _ & ?)]; auto.
Qed.

(** A login changes neither collection. *)
Lemma collections_are_append_only_witness :
  exists us, users (snd (wsgi_app Sample.with_models
                           (Sample.post_form "/login"
                              [("email", "a@x.com"); ("password", "pw1234")])
                           Sample.anonymous))
             = users Sample.anonymous ++ us
             /\ us = [].
Proof.
  destruct (proj1 (collections_are_append_only Sample.with_models
                     (Sample.post_form "/login"
                        [("email", "a@x.com"); ("password", "pw1234")])
                     Sample.anonymous))
    as (us & Hus & _ & Hnone).
  exists us. split; [exact Hus|]. apply Hnone. discriminate.
Defined.



(** X11. Who is logged in changes at /login and /logout only: every
    request to another path, failing or not, leaves the session user as it
    was. *)
Theorem session_user_changes_at_login_and_logout_only
    (env : Env) (req : Request) (w : World) :
  path req <> "/login" -> path req <> "/logout" ->
  sess_user (session (snd (wsgi_app env req w))) = sess_user (session w).
Proof.
  intros Hnl Hno. destruct (request_footprint env req w) as (_ & _ & Hsess).
  exact (Hsess Hnl Hno).
Qed.

Lemma session_user_changes_at_login_and_logout_only_witness :
  sess_user (session (snd (wsgi_app Sample.with_models
                             (Sample.post_file "/predict" "notes.txt" "Z")
                             Sample.logged_in)))
  = sess_user (session Sample.logged_in).
Proof.
  apply session_user_changes_at_login_and_logout_only; discriminate.
Defined.

(** ** Logging in and out *)

Section Sessions.

Context (env : Env).

Lemma find_one_user_new (e : string) (u : User) w us :
  users w = us ++ [u] -> user_email u = e ->
  (forall u', u' ∈ us -> user_email u' <> e) ->
  find_one_user (Some e) w = (Ok (Some u), w).
Proof.
  intros Hus He Hfresh. unfold find_one_user, gets. rewrite Hus.
  f_equal. f_equal. clear Hus. induction us as [|u' us IH]; cbn.
  - rewrite bool_decide_eq_true_2 by (rewrite He; reflexivity). reflexivity.
  - rewrite bool_decide_eq_false_2.
    + apply IH. intros u'' Hin. apply Hfresh. constructor. exact Hin.
    + intros [= Heq]. apply (Hfresh u'); [constructor|exact Heq].
Qed.

Lemma dispatch_scan_home req :
  method req = "GET" -> path req = "/scan_home" ->
  dispatch_request env req = scan_home req.
Proof.
  intros Hm Hp.
  apply (dispatch_view env req "/scan_home" ["GET"] "scan_home");
    [rewrite Hp|rewrite Hm|]; reflexivity.
Qed.

Lemma dispatch_logout req :
  method req = "GET" -> path req = "/logout" ->
  dispatch_request env req = logout req.
Proof.
  intros Hm Hp.
  apply (dispatch_view env req "/logout" ["GET"] "logout");
    [rewrite Hp|rewrite Hm|]; reflexivity.
Qed.

(** The routes behind [login_required], with their rules. *)
Lemma gated_rule req :
  (method req, path req)
    ∈ [("GET", "/scan_home"); ("GET", "/scan_leaf"); ("GET", "/scan_skin");
       ("POST", "/predict"); ("POST", "/predict-leaf"); ("GET", "/scans")] ->
  exists declared endpoint (f : View),
    match_rule (path req) = Some (path req, declared, endpoint)
    /\ List.find (fun v => String.eqb (fst v) endpoint) (view_functions env)
       = Some (endpoint, login_required f)
    /\ existsb (String.eqb (method req)) (rule_methods declared) = true.
Proof.
  intros Hin. rewrite !elem_of_cons in Hin.
  destruct Hin as [Hin|[Hin|[Hin|[Hin|[Hin|[Hin|Hin]]]]]];
    [| | | | | |apply elem_of_nil in Hin; contradiction];
    injection Hin as Hm Hp; rewrite Hm, Hp; do 3 eexists;
    repeat split; reflexivity.
Qed.

End Sessions.



(** X13. Register, then log in: after a successful registration, a login
    with the same email and password is accepted whenever
    [check_password_hash] accepts the hash that [generate_password_hash]
    made of that password; the session then names the new user, and
    /scan_home opens. *)
Theorem register_then_login
    (env : Env) (req req2 req3 : Request) (w : World)
    (fullname email password : string) :
  method req = "POST" -> path req = "/register" ->
  form req !! "fullname" = Some fullname -> fullname <> "" ->
  form req !! "email" = Some email -> email <> "" ->
  form req !! "password" = Some password -> password <> "" ->
  form req !! "confirmPassword" = Some password ->
  (forall u, u ∈ users w -> user_email u <> email) ->
  check_password_hash env (generate_password_hash env (ticks w) password) (Some password)
  = Some true ->
  method req2 = "POST" -> path req2 = "/login" ->
  form req2 !! "email" = Some email -> form req2 !! "password" = Some password ->
  method req3 = "GET" -> path req3 = "/scan_home" ->
  let w1 := snd (wsgi_app env req w) in
  let w2 := snd (wsgi_app env req2 w1) in
  fst (wsgi_app env req2 w1) = Redirect "/scan_home"
  /\ sess_user (session w2) = Some (mkSessionUser (Some email) fullname)
  /\ fst (wsgi_app env req3 w2) = Render "scanning.html".
Proof.
  intros Hm Hp Hfn Hfn' Hem Hem' Hpw Hpw' Hcf Hnew Hcheck Hm2 Hp2 Hem2 Hpw2 Hm3 Hp3 w1 w2.
  assert (Hreg := register_run env req w fullname email password
                    Hm Hfn Hfn' Hem Hem' Hpw Hpw' Hcf Hnew).
  rewrite <- (dispatch_register env req Hm Hp) in Hreg. apply wsgi_app_ok in Hreg.
  set (u := mkUser fullname email (generate_password_hash env (ticks w) password)
                   (utcnow env (S (ticks w)))) in Hreg.
  assert (Hfind : find_one_user (form req2 !! "email") w1 = (Ok (Some u), w1)).
  { rewrite Hem2. apply (find_one_user_new email u w1 (users w)).
    - unfold w1. rewrite Hreg. reflexivity.
    - reflexivity.
    - exact Hnew. }
  assert (Hlogin := login_run env req2 w1 u Hm2 Hfind).
  rewrite Hpw2 in Hlogin. cbn [user_password u] in Hlogin. rewrite Hcheck in Hlogin.
  rewrite <- (dispatch_login env req2 Hm2 Hp2) in Hlogin. apply wsgi_app_ok in Hlogin.
  subst w2. rewrite Hlogin. cbn [fst snd]. rewrite Hem2.
  split; [reflexivity|]. split; [reflexivity|].
  assert (Hpage : forall w', is_Some (sess_user (session w')) ->
                             wsgi_app env req3 w' = (Render "scanning.html", w')).
  { intros w' Hu. apply wsgi_app_ok. rewrite dispatch_scan_home by assumption.
    unfold scan_home. rewrite login_required_user by exact Hu. reflexivity. }
  rewrite Hpage by (eexists; reflexivity). reflexivity.
Qed.

(** The end-to-end scenario on an empty store, with the toy hash. *)
Lemma register_then_login_witness :
  let w1 := snd (wsgi_app Sample.no_models
                   (Sample.post_form "/register"
                      [("fullname", "A"); ("email", "a@x.com"); ("password", "pw1234");
                       ("confirmPassword", "pw1234")])
                   Sample.empty_world) in
  let w2 := snd (wsgi_app Sample.no_models
                   (Sample.post_form "/login"
                      [("email", "a@x.com"); ("password", "pw1234")]) w1) in
  fst (wsgi_app Sample.no_models
         (Sample.post_form "/login" [("email", "a@x.com"); ("password", "pw1234")]) w1)
  = Redirect "/scan_home"
  /\ sess_user (session w2) = Some (mkSessionUser (Some "a@x.com") "A")
  /\ fst (wsgi_app Sample.no_models (Sample.get "/scan_home") w2)
     = Render "scanning.html".
Proof.
  apply (register_then_login Sample.no_models
           (Sample.post_form "/register"
              [("fullname", "A"); ("email", "a@x.com"); ("password", "pw1234");
               ("confirmPassword", "pw1234")])
           (Sample.post_form "/login" [("email", "a@x.com"); ("password", "pw1234")])
           (Sample.get "/scan_home")
           Sample.empty_world "A" "a@x.com" "pw1234");
    try reflexivity; try discriminate.
  intros u Hin. apply elem_of_nil in Hin. contradiction.
Defined.

(** X14. Logging out closes the gate: GET /logout, with or without a
    user in the session, removes the session user, touches neither
    collection nor the uploads, and redirects to the landing page; the
    next request to a login-protected route is sent to the login page. *)
Theorem logout_closes_the_gate (env : Env) (req req2 : Request) (w : World) :
  method req = "GET" -> path req = "/logout" ->
  (method req2, path req2)
    ∈ [("GET", "/scan_home"); ("GET", "/scan_leaf"); ("GET", "/scan_skin");
       ("POST", "/predict"); ("POST", "/predict-leaf"); ("GET", "/scans")] ->
  wsgi_app env req w
  = (Redirect "/",
     mkWorld (users w) (scans w) (uploads w)
             (mkSession None (flashes (session w) ++ [("info", "Logged out")]))
             (ticks w))
  /\ fst (wsgi_app env req2 (snd (wsgi_app env req w))) = Redirect "/login".
Proof.
  intros Hm Hp Hgated.
  assert (Hout : wsgi_app env req w
                 = (Redirect "/",
                    mkWorld (users w) (scans w) (uploads w)
                            (mkSession None
                               (flashes (session w) ++ [("info", "Logged out")]))
                            (ticks w))).
  { apply wsgi_app_ok. rewrite dispatch_logout by assumption. reflexivity. }
  rewrite Hout. split; [reflexivity|]. cbn [snd].
  destruct (gated_rule env req2 Hgated) as (declared & endpoint & f & Hr & Hv & Hacc).
  rewrite (gated_route env req2 (mkWorld (users w) (scans w) (uploads w)
                                  (mkSession None
                                     (flashes (session w) ++ [("info", "Logged out")]))
                                  (ticks w))
             _ declared endpoint f Hr Hv eq_refl), Hacc.
  reflexivity.
Qed.

Lemma logout_closes_the_gate_witness :
  fst (wsgi_app Sample.with_models (Sample.get "/scans")
         (snd (wsgi_app Sample.with_models (Sample.get "/logout")
                 Sample.carol_with_scans)))
  = Redirect "/login".
Proof.
  apply (logout_closes_the_gate Sample.with_models (Sample.get "/logout")
           (Sample.get "/scans") Sample.carol_with_scans eq_refl eq_refl).
  do 5 apply list_elem_of_further. apply list_elem_of_here.
Defined.

(** ** Accepted predictions *)

(** X15. A prediction at or above the threshold names the arg-max
    class: when the arg-max index is within the class list and the
    confidence is not below the threshold, the classifier returns the
    class name at that index together with the model's output at that
    index, as a percentage for the leaf classifier and as it is for the
    skin classifier. *)
Theorem accepted_prediction_names_the_argmax_class :
  (forall (env : Env) (w : World) (filepath data : string) (m : Model)
          (preds : list float) (idx : nat) (name : string) (p : float),
     leaf_model env = Some m ->
     uploads w !! filepath = Some data -> m data = Some preds ->
     Np.argmax preds = Some idx ->
     leaf_class_names !! idx = Some name ->
     preds !! idx = Some p ->
     (p * 100 <? 10)%float = false ->
     predict_leaf_image env filepath w = (Ok (name, (p * 100)%float), w))
  /\ (forall (env : Env) (w : World) (filepath data : string) (m : Model)
             (preds : list float) (idx : nat) (name : string) (p : float),
        skin_model env = Some m ->
        uploads w !! filepath = Some data -> m data = Some preds ->
        Np.argmax preds = Some idx ->
        disease_classes env !! idx = Some name ->
        preds !! idx = Some p ->
        (p <? 0.05)%float = false ->
        predict_skin_image env filepath w = (Ok (name, p), w)).
Proof.
  split; intros env w filepath data m preds idx name p Hm Hf Hd Hi Hname Hp Hacc;
    (destruct (Np.max preds) as [top|] eqn:Ht; [|destruct preds; discriminate]);
    pose proof (argmax_from_lookup_max preds idx top Hi Ht) as Hp';
    rewrite Hp in Hp'; injection Hp' as <-.
  - rewrite (predict_leaf_image_preds env m filepath data preds idx p w)
      by assumption.
    rewrite Hacc, Hname. reflexivity.
  - rewrite (predict_skin_image_preds env m filepath data preds idx p w);
      try assumption.
    + rewrite Hacc, Hname. reflexivity.
    + intros Hnil. rewrite Hnil in Hname. discriminate Hname.
Qed.

(** 90 percent for Aloevera, 0.7 for eczema. *)
Lemma accepted_prediction_names_the_argmax_class_witness :
  predict_leaf_image Sample.with_models Sample.stored_at (Sample.stored "A")
  = (Ok ("Aloevera", (0.9 * 100)%float), Sample.stored "A")
  /\ predict_skin_image Sample.with_models Sample.stored_at (Sample.stored "A")
     = (Ok ("eczema", 0.7%float), Sample.stored "A").
Proof.
  split.
  - exact (proj1 accepted_prediction_names_the_argmax_class Sample.with_models
             (Sample.stored "A") Sample.stored_at "A" Sample.leaf13
             [0.9%float; 0.1%float] 0%nat "Aloevera" 0.9%float
             eq_refl eq_refl eq_refl eq_refl eq_refl eq_refl eq_refl).
  - exact (proj2 accepted_prediction_names_the_argmax_class Sample.with_models
             (Sample.stored "A") Sample.stored_at "A" Sample.skin3
             [0.2%float; 0.7%float; 0.1%float] 1%nat "eczema" 0.7%float
             eq_refl eq_refl eq_refl eq_refl eq_refl eq_refl eq_refl).
Defined.

(** ** Uploads *)

Section Uploads.

Context (env : Env).

(** A prediction endpoint that answers 200 to an upload has stored the
    file and appended one record that names it. *)
Lemma prediction_appends req w file :
  is_Some (sess_user (session w)) ->
  method req = "POST" ->
  path req = "/predict-leaf" \/ path req = "/predict" ->
  files req !! "image" = Some file ->
  status_code (fst (wsgi_app env req w)) = 200%Z ->
  exists d,
    snd (wsgi_app env req w)
    = mkWorld (users w) (scans w ++ [d])
              (<[stored_path env (utcnow env (ticks w)) (file_name file)
                 := file_data file]> (uploads w))
              (session w) (S (S (ticks w)))
    /\ scan_saved_name d = stored_name env (utcnow env (ticks w)) (file_name file)
    /\ scan_filename d = file_name file.
Proof.
  intros Hu Hm [Hp|Hp] Hf H200.
  - destruct (allowed_file (file_name file)) eqn:Hok.
    + pose proof (leaf_endpoint_outcomes_aux env req w file Hu Hm Hp Hf Hok) as Hrun.
      cbv zeta in Hrun. rewrite Hrun in H200 |- *.
      destruct (fs_writable env _); [|discriminate H200].
      destruct (fst (predict_leaf_image env _ _)) as [[leaf_name conf]|e];
        [|discriminate H200].
      eexists (LeafScan leaf_name _ _ conf _ _ _). repeat split.
    + assert (Hrun : wsgi_app env req w
                     = (JsonResponse 400 (JObj [("error", JStr "invalid file")]), w)).
      { apply wsgi_app_ok. rewrite dispatch_predict_leaf by assumption.
        apply (predict_leaf_rejects env req w file); try assumption.
        rewrite Hok. apply orb_true_r. }
      rewrite Hrun in H200. discriminate H200.
  - pose proof (skin_endpoint_outcomes_aux env req w file Hu Hm Hp Hf) as Hrun.
    cbv zeta in Hrun. rewrite Hrun in H200 |- *.
    destruct (fs_writable env _); [|discriminate H200].
    destruct (fst (predict_skin_image env _ _)) as [[pred_class conf]|e];
      [|discriminate H200].
    eexists (SkinScan pred_class conf _ _ _). repeat split.
Qed.

End Uploads.

(** X16. A prediction answered 200 is listed by the next GET /scans of
    the session, with every earlier record, as long as fewer than 200
    records were stored before it. *)
Theorem prediction_is_listed_by_scans
    (env : Env) (req req2 : Request) (w : World) (file : FileStorage) :
  is_Some (sess_user (session w)) ->
  method req = "POST" ->
  path req = "/predict-leaf" \/ path req = "/predict" ->
  files req !! "image" = Some file ->
  status_code (fst (wsgi_app env req w)) = 200%Z ->
  length (scans w) < 200 ->
  method req2 = "GET" -> path req2 = "/scans" ->
  exists (d : Scan) (docs : list Scan),
    scan_filename d = file_name file
    /\ fst (wsgi_app env req2 (snd (wsgi_app env req w)))
       = JsonResponse 200 (JArr (scan_json <$> docs))
    /\ d ∈ docs
    /\ docs ≡ₚ scans w ++ [d].
Proof.
  intros Hu Hm Hp Hf H200 Hlen Hm2 Hp2.
  destruct (prediction_appends env req w file Hu Hm Hp Hf H200) as (d & Hw1 & _ & Hname).
  rewrite Hw1.
  exists d, (take 200 (merge_sort newer_first (scans w ++ [d]))).
  assert (Hall : take 200 (merge_sort newer_first (scans w ++ [d])) ≡ₚ scans w ++ [d]).
  { rewrite take_ge; [apply merge_sort_Permutation|].
    rewrite (Permutation_length (merge_sort_Permutation newer_first (scans w ++ [d]))).
    rewrite length_app. cbn. lia. }
  split; [exact Hname|]. split; [|split; [|exact Hall]].
  - unfold wsgi_app. rewrite dispatch_get_scans by assumption.
    rewrite get_scans_run by exact Hu. reflexivity.
  - rewrite Hall. apply elem_of_app. right. constructor.
Qed.

Lemma prediction_is_listed_by_scans_witness :
  exists (d : Scan) (docs : list Scan),
    scan_filename d = "notes.txt"
    /\ fst (wsgi_app Sample.with_models (Sample.get "/scans")
              (snd (wsgi_app Sample.with_models
                      (Sample.post_file "/predict" "notes.txt" "A")
                      Sample.carol_with_scans)))
       = JsonResponse 200 (JArr (scan_json <$> docs))
    /\ d ∈ docs
    /\ docs ≡ₚ Sample.three_scans ++ [d].
Proof.
  apply (prediction_is_listed_by_scans Sample.with_models
           (Sample.post_file "/predict" "notes.txt" "A") (Sample.get "/scans")
           Sample.carol_with_scans (mkFile "notes.txt" "A"));
    try reflexivity.
  - eexists; reflexivity.
  - right; reflexivity.
  - cbn. lia.
Defined.

(** X17. Stored names can collide: two uploads of the same name whose
    times fall into the same millisecond are written to the same file.
    After both requests the file holds the bytes of the second upload,
    and both scan records point to it. *)
Theorem same_millisecond_uploads_collide
    (env : Env) (req1 req2 : Request) (w : World) (file1 file2 : FileStorage) :
  is_Some (sess_user (session w)) ->
  method req1 = "POST" -> path req1 = "/predict-leaf" \/ path req1 = "/predict" ->
  method req2 = "POST" -> path req2 = "/predict-leaf" \/ path req2 = "/predict" ->
  files req1 !! "image" = Some file1 -> files req2 !! "image" = Some file2 ->
  file_name file1 = file_name file2 ->
  timestamp_ms env (utcnow env (ticks w))
  = timestamp_ms env (utcnow env (S (S (ticks w)))) ->
  let w1 := snd (wsgi_app env req1 w) in
  let w2 := snd (wsgi_app env req2 w1) in
  status_code (fst (wsgi_app env req1 w)) = 200%Z ->
  status_code (fst (wsgi_app env req2 w1)) = 200%Z ->
  exists d1 d2 : Scan,
    scans w2 = scans w ++ [d1; d2]
    /\ scan_saved_name d1 = scan_saved_name d2
    /\ uploads w2 !! os_path_join (UPLOAD_FOLDER env) (scan_saved_name d1)
       = Some (file_data file2).
Proof.
  intros Hu Hm1 Hp1 Hm2 Hp2 Hf1 Hf2 Hname Hms w1 w2 H1 H2.
  destruct (prediction_appends env req1 w file1 Hu Hm1 Hp1 Hf1 H1)
    as (d1 & Hw1 & Hs1 & _).
  assert (Hu1 : is_Some (sess_user (session w1))) by (unfold w1; rewrite Hw1; exact Hu).
  destruct (prediction_appends env req2 w1 file2 Hu1 Hm2 Hp2 Hf2 H2)
    as (d2 & Hw2 & Hs2 & _).
  exists d1, d2. unfold w2. rewrite Hw2. cbn [scans uploads].
  assert (Hsame : scan_saved_name d2 = scan_saved_name d1).
  { rewrite Hs1, Hs2. unfold w1. rewrite Hw1. cbn [ticks].
    unfold stored_name. rewrite <- Hms, Hname. reflexivity. }
  split; [|split].
  - unfold w1. rewrite Hw1. cbn [scans]. rewrite <- app_assoc. reflexivity.
  - symmetry. exact Hsame.
  - rewrite <- Hsame, Hs2. apply lookup_insert_eq.
Qed.

Lemma same_millisecond_uploads_collide_witness :
  let env := mkEnv "/srv/app" None None [] (fun n => (1700000000000000 + Z.of_nat n)%Z)
                   (fun t => (t / 1000)%Z) (fun _ => true)
                   Sample.toy_hash Sample.toy_check in
  let w2 := snd (wsgi_app env (Sample.post_file "/predict" "skin.png" "second")
                   (snd (wsgi_app env (Sample.post_file "/predict" "skin.png" "first")
                           Sample.logged_in))) in
  exists d1 d2 : Scan,
    scans w2 = scans Sample.logged_in ++ [d1; d2]
    /\ scan_saved_name d1 = scan_saved_name d2
    /\ uploads w2 !! os_path_join (UPLOAD_FOLDER env) (scan_saved_name d1)
       = Some "second".
Proof.
  intros env w2.
  apply (same_millisecond_uploads_collide env
           (Sample.post_file "/predict" "skin.png" "first")
           (Sample.post_file "/predict" "skin.png" "second")
           Sample.logged_in (mkFile "skin.png" "first") (mkFile "skin.png" "second"));
    try reflexivity.
  - eexists; reflexivity.
  - right; reflexivity.
  - right; reflexivity.
Defined.


